(** * Original-Markdown preservation adapters of docling

    A shallow embedding of

    - [docling/chunking/original_markdown_chunker.py]: the serializer
      adapter [OriginalMarkdownChunkingDocSerializer] and the single-chunk
      producer [SingleChunkMarkdownChunker];
    - [docling/utils/export.py]: the page export generator
      [generate_multimodal_pages] with its nested helpers.

    Python values are modelled as the code has them: [str] as [string]
    (a sequence of bytes, so equality is byte-for-byte), [int] as [Z],
    [Optional[T]] as [option T], a [dict] with string keys as
    [gmap string _], exceptions through the result type [Py], and a
    generator through the trace type [Gen] (what was yielded, and how the
    body ended). *)

From Stdlib Require Import ZArith List String Bool Lia.
From Stdlib Require Import QArith_base.
From stdpp Require Import base option list strings gmap sorting.

Close Scope Q_scope.
Local Open Scope string_scope.
Local Open Scope list_scope.
Local Open Scope Z_scope.

(** ** Python effects *)

(** The exception classes that the modelled code raises or catches. *)
Inductive exn : Type :=
| AttributeError
| IndexError
| ValidationError
| PyException (cls : string).

(** The outcome of evaluating a Python expression. *)
Inductive Py (A : Type) : Type :=
| Ret (a : A)
| Raise (e : exn).
Arguments Ret {A} a.
Arguments Raise {A} e.

Definition py_bind {A B : Type} (m : Py A) (k : A -> Py B) : Py B :=
  match m with
  | Ret a => k a
  | Raise e => Raise e
  end.

Definition py_map {A B : Type} (f : A -> B) (m : Py A) : Py B :=
  py_bind m (fun a => Ret (f a)).

Declare Scope py_scope.
Delimit Scope py_scope with py.
Notation "'let*' x ':=' m 'in' k" := (py_bind m (fun x => k))
  (at level 10, x name, m at level 100, k at level 200) : py_scope.
Local Open Scope py_scope.

(** [try: body  except AttributeError: handler].  Only [AttributeError]
    is caught; any other exception propagates. *)
Definition try_except_AttributeError {A : Type} (body handler : Py A) : Py A :=
  match body with
  | Raise AttributeError => handler
  | other => other
  end.

(** [l[i]] for a Python list: a negative index counts from the end, an
    index out of range raises [IndexError]. *)
Definition py_index {A : Type} (l : list A) (i : Z) : Py A :=
  let n := Z.of_nat (length l) in
  let j := if i <? 0 then i + n else i in
  if (j <? 0) || (n <=? j) then Raise IndexError
  else match l !! Z.to_nat j with
       | Some x => Ret x
       | None => Raise IndexError
       end.

(** [len(l)] *)
Definition len {A : Type} (l : list A) : Z := Z.of_nat (length l).

(** A generator body run to completion: the values it yielded, in order,
    and how it ended ([Ret] for a normal end, [Raise] for an exception
    escaping the body after the yields). *)
Record Gen (Y A : Type) : Type := MkGen { yielded : list Y; ended : Py A }.
Arguments MkGen {Y A} yielded ended.
Arguments yielded {Y A} g.
Arguments ended {Y A} g.

Definition gen_ret {Y A : Type} (a : A) : Gen Y A := MkGen [] (Ret a).

Definition gen_yield {Y : Type} (y : Y) : Gen Y unit := MkGen [y] (Ret tt).

Definition gen_lift {Y A : Type} (m : Py A) : Gen Y A := MkGen [] m.

Definition gen_bind {Y A B : Type} (m : Gen Y A) (k : A -> Gen Y B) : Gen Y B :=
  match ended m with
  | Ret a => let m' := k a in MkGen (yielded m ++ yielded m') (ended m')
  | Raise e => MkGen (yielded m) (Raise e)
  end.

Declare Scope gen_scope.
Delimit Scope gen_scope with gen.
Notation "'let*' x ':=' m 'in' k" := (gen_bind m (fun x => k))
  (at level 10, x name, m at level 100, k at level 200) : gen_scope.
Notation "m ';;' k" := (gen_bind m (fun _ => k))
  (at level 100, k at level 200, right associativity) : gen_scope.

Module Chunking.

(** ** The interfaces of docling_core used by the chunking adapters *)

(** A value passed through [**kwargs]. *)
Inductive PyValue : Type :=
| PyNone
| PyBool (b : bool)
| PyInt (z : Z)
| PyStr (s : string).

Abbreviation Kwargs := (gmap string PyValue).

(** [SerializationResult(text=..., spans=...)]; [spans] defaults to the
    empty list. *)
Record SerializationResult : Type := {
  sr_text : string;
  sr_spans : list string;
}.

Definition mk_SerializationResult (text : string) : SerializationResult :=
  {| sr_text := text; sr_spans := [] |}.

(** The nodes of a document: a [DocItem] is an element with content
    (text, table, picture, ...), a [GroupItem] only holds children.  Both
    are [NodeItem]s. *)
Record DocItem : Type := { self_ref : string }.

Record GroupItem : Type := { group_ref : string }.

Inductive NodeItem : Type :=
| NDocItem (d : DocItem)
| NGroupItem (g : GroupItem).

Record DocumentOrigin : Type := {
  mimetype : string;
  binary_hash : Z;
  filename : string;
}.

(** What [doc.iterate_items()] produces when called without arguments:
    the elements with content, groups left out, as [(item, level)]
    tuples; the adapter also accepts a bare item. *)
Inductive IterateEntry : Type :=
| ItemTuple (item : DocItem) (level : Z)
| BareItem (item : DocItem).

(** A [DoclingDocument] as far as the adapters look at it.

    [get_original_markdown] is the origin-text capability: it is [None]
    when the document has no such attribute (the tests check
    [not hasattr(doc, 'get_original_markdown')] for a plain document),
    and [Some r] when the method is present and returns [r], itself
    [None] or the stored text.  The root [body] is a group. *)
Record DoclingDocument : Type := {
  get_original_markdown : option (option string);
  export_to_markdown : string;
  iterate_items : list IterateEntry;
  body : GroupItem;
  origin : option DocumentOrigin;
}.

(** The call [doc.get_original_markdown()]. *)
Definition call_get_original_markdown (doc : DoclingDocument) : Py (option string) :=
  match get_original_markdown doc with
  | None => Raise AttributeError
  | Some r => Ret r
  end.

(** The base class [ChunkingDocSerializer], a pydantic model of
    docling_core.

    - [super_init doc kwargs] is [super().__init__(doc=doc, **kwargs)]:
      the model validates its arguments and raises on those it does not
      accept; with the document alone it returns.
    - [super_serialize_doc] is the document-level entry point, a function
      of the constructor arguments and of the call arguments.
    - [super_serialize] is the node-level entry point.  The base
      implementation runs on the object it is called on and reaches the
      document-level method through [self]; its first argument is that
      method of the object, so that an override is the one called. *)
Class ChunkingDocSerializer : Type := {
  super_init : DoclingDocument -> Kwargs -> Py unit;
  super_init_doc_only : forall doc, super_init doc ∅ = Ret tt;
  super_serialize_doc :
    DoclingDocument -> Kwargs ->
    list SerializationResult -> Kwargs -> Py SerializationResult;
  super_serialize :
    (list SerializationResult -> Kwargs -> Py SerializationResult) ->
    DoclingDocument -> Kwargs ->
    option NodeItem -> Z -> bool -> option (gset string) -> Kwargs ->
    Py SerializationResult;
}.

(** ** [original_markdown_chunker.py]: the serializer adapter *)

(** An instance of [OriginalMarkdownChunkingDocSerializer]: the
    constructor arguments kept by the base object, and the private
    attribute [_original_content]. *)
Record OriginalMarkdownChunkingDocSerializer : Type := {
  ser_doc : DoclingDocument;
  ser_kwargs : Kwargs;
  _original_content : option string;
}.

Section SerializerAdapter.
Context `{Base : ChunkingDocSerializer}.

(** [__init__(self, doc, **kwargs)]: the base constructor runs first;
    the attribute is then set to [None], assigned inside [try], and set
    to [None] again by the handler. *)
Definition __init__ (doc : DoclingDocument) (kwargs : Kwargs)
  : Py OriginalMarkdownChunkingDocSerializer :=
  let* _ := super_init doc kwargs in
  let self := {| ser_doc := doc; ser_kwargs := kwargs;
                 _original_content := None |} in
  let* content :=
    try_except_AttributeError (call_get_original_markdown doc) (Ret None) in
  Ret {| ser_doc := ser_doc self; ser_kwargs := ser_kwargs self;
         _original_content := content |}.

(** [OriginalMarkdownChunkingSerializerProvider.get_serializer] *)
Definition get_serializer (doc : DoclingDocument)
  : Py OriginalMarkdownChunkingDocSerializer :=
  __init__ doc ∅.

(** [serialize_doc(self, *, parts, **kwargs)] *)
Definition serialize_doc (self : OriginalMarkdownChunkingDocSerializer)
    (parts : list SerializationResult) (kwargs : Kwargs)
  : Py SerializationResult :=
  match _original_content self with
  | Some content =>
      if 1 <? len parts
      then Ret (mk_SerializationResult content)
      else super_serialize_doc (ser_doc self) (ser_kwargs self) parts kwargs
  | None =>
      super_serialize_doc (ser_doc self) (ser_kwargs self) parts kwargs
  end.

(** [serialize(self, *, item, list_level, is_inline_scope, visited,
    **kwargs)]: [super().serialize(...)], which runs on [self], whose
    document-level method is the [serialize_doc] above. *)
Definition serialize (self : OriginalMarkdownChunkingDocSerializer)
    (item : option NodeItem) (list_level : Z) (is_inline_scope : bool)
    (visited : option (gset string)) (kwargs : Kwargs)
  : Py SerializationResult :=
  super_serialize (serialize_doc self) (ser_doc self) (ser_kwargs self)
    item list_level is_inline_scope visited kwargs.


End SerializerAdapter.

(** ** [original_markdown_chunker.py]: the single-chunk producer *)

(** A [DocMeta]: its [doc_items] are [DocItem]s. *)
Record DocMeta : Type := {
  doc_items : list DocItem;
  meta_origin : option DocumentOrigin;
}.

(** [DocMeta(doc_items=..., origin=...)]: the pydantic model declares
    [doc_items: list[DocItem]] with at least one entry, and raises a
    [ValidationError] on a list that is empty or holds a node that is
    not a [DocItem]. *)
Fixpoint as_doc_items (items : list NodeItem) : option (list DocItem) :=
  match items with
  | [] => Some []
  | NDocItem d :: items' =>
      match as_doc_items items' with
      | Some ds => Some (d :: ds)
      | None => None
      end
  | NGroupItem _ :: _ => None
  end.

Definition DocMeta_init (items : list NodeItem)
    (origin : option DocumentOrigin) : Py DocMeta :=
  match as_doc_items items with
  | Some (d :: ds) => Ret {| doc_items := d :: ds; meta_origin := origin |}
  | _ => Raise ValidationError
  end.

(** [DocChunk(text=..., meta=...)] *)
Record DocChunk : Type := {
  chunk_text : string;
  chunk_meta : DocMeta;
}.

(** The body of the [for item_tuple in doc.iterate_items()] loop: the
    element taken out of its tuple, when it is one. *)
Definition unwrap_item (item_tuple : IterateEntry) : DocItem :=
  match item_tuple with
  | ItemTuple item _ => item
  | BareItem item => item
  end.

(** The loop itself, appending to the local list [doc_items]. *)
Definition collect_doc_items (entries : list IterateEntry) : list NodeItem :=
  fold_left (fun items item_tuple =>
               items ++ [NDocItem (unwrap_item item_tuple)])
            entries [].

(** [SingleChunkMarkdownChunker.chunk(self, doc)], a generator. *)
Definition chunk (doc : DoclingDocument) : Gen DocChunk unit :=
  (let* original_content :=
     gen_lift (try_except_AttributeError
                 (call_get_original_markdown doc) (Ret None)) in
   let original_content :=
     match original_content with
     | None => export_to_markdown doc
     | Some content => content
     end in
   let items := collect_doc_items (iterate_items doc) in
   let* meta :=
     gen_lift (DocMeta_init
                 (match items with
                  | [] => [NGroupItem (body doc)]
                  | _ :: _ => items
                  end)
                 (origin doc)) in
   gen_yield {| chunk_text := original_content; chunk_meta := meta |})%gen.

(** The text that the chunk operation keeps: the stored original text,
    or the recomposed export when there is none or no such attribute. *)
Definition chosen_text (doc : DoclingDocument) : string :=
  match get_original_markdown doc with
  | Some (Some content) => content
  | _ => export_to_markdown doc
  end.

End Chunking.

(** ** [export.py]: the page export utility *)

Module PageExport.

(** *** The legacy document model and the conversion result *)

(** A float is carried as the rational it denotes; the code under study
    never computes on one itself, it hands them to the geometry of
    docling_core. *)
Abbreviation float := Q.

(** The four floats of a bounding box, as a tuple. *)
Abbreviation BBoxTuple := (float * float * float * float)%type.

Record Size : Type := { width : float; height : float }.

(** One provenance record of an element: where it sits, on which page. *)
Record Prov : Type := { bbox : BBoxTuple; page : Z }.

(** A [Ref] of the legacy document model: it declares [name], [obj_type]
    and [ref] only. *)
Record Ref : Type := { ref_name : string; ref_obj_type : string; ref : string }.

(** A concrete element ([BaseCell], [BaseText], [Table], ...).
    [table_html] is [Some h] exactly when the element is a [Table], [h]
    being what its [export_to_html()] returns. *)
Record Item : Type := {
  obj_type : string;
  prov : option (list Prov);
  text : option string;
  table_html : option string;
}.

(** An entry of [doc.main_text], and of the local [doc_items]. *)
Inductive Entry : Type :=
| ERef (r : Ref)
| EItem (it : Item).

(** A raw text cell of a page. *)
Record Cell : Type := {
  cell_text : string;
  rect : list float;
  from_ocr : bool;
  confidence : float;
}.

Record Page : Type := {
  page_no_of : Z;
  size : option Size;
  cells : list Cell;
}.

(** [doc_result.legacy_document]: the flat element sequence, the
    resolution of references, and the two recomposed exports restricted
    to an index range. *)
Record LegacyDocument : Type := {
  main_text : option (list Entry);
  _resolve_ref : Ref -> option Item;
  export_to_markdown : Z -> Z -> string;
  export_to_document_tokens : Z -> Z -> bool -> string;
}.

(** Modelled from the spec: [ConversionResult.get_original_markdown] is
    declared in docling/datamodel/document.py, which is not among the
    sources.  The spec gives the conversion result the capability
    "attempt to retrieve original source text", which returns the text
    or indicates absence; [get_original_markdown] is what the call
    returns. *)
Record ConversionResult : Type := {
  legacy_document : LegacyDocument;
  pages : list Page;
  get_original_markdown : option string;
}.

(** The geometry of docling_core, which the export hands boxes to:
    [BoundingBox.from_tuple(t, origin=BOTTOMLEFT)
       .to_top_left_origin(page_height=size.height)
       .normalized(page_size=size).as_tuple()]
    for an element, and the same chain after [rect.to_bounding_box()]
    for a cell. *)
Class Geometry : Type := {
  item_bbox_normalized : BBoxTuple -> Size -> BBoxTuple;
  cell_bbox_normalized : list float -> Size -> BBoxTuple;
}.

(** *** What the generator builds *)

Record SegmentData : Type := { html_seq : string; otsl_seq : string }.

(** A [new_segment] dictionary. *)
Record Segment : Type := {
  index_in_doc : Z;
  label : string;
  seg_text : string;
  seg_bbox : BBoxTuple;
  data : list SegmentData;
}.

(** A dictionary appended to [cells]. *)
Record CellRecord : Type := {
  rec_text : string;
  rec_bbox : BBoxTuple;
  ocr : bool;
  ocr_confidence : float;
}.

(** The tuple the generator yields:
    [(content_text, content_md, content_dt, page_cells, page_segments,
      page)]. *)
Record PageTuple : Type := {
  t_content_text : string;
  t_content_md : string;
  t_content_dt : string;
  t_page_cells : list CellRecord;
  t_page_segments : list Segment;
  t_page : Page;
}.

(** The local variables of [generate_multimodal_pages] that the nested
    [_process_page] reads through its closure. *)
Record Locals : Type := {
  content_text : string;
  page_no : Z;
  start_ix : Z;
  end_ix : Z;
  doc_items : list (Z * Entry);
}.

Definition label_to_doclaynet : gmap string string :=
  list_to_map
    [ ("title", "title");
      ("table-of-contents", "document_index");
      ("subtitle-level-1", "section_header");
      ("checkbox-selected", "checkbox_selected");
      ("checkbox-unselected", "checkbox_unselected");
      ("caption", "caption");
      ("page-header", "page_header");
      ("page-footer", "page_footer");
      ("footnote", "footnote");
      ("table", "table");
      ("formula", "formula");
      ("list-item", "list_item");
      ("code", "code");
      ("figure", "picture");
      ("picture", "picture");
      ("reference", "text");
      ("paragraph", "text");
      ("text", "text") ].

(** *** Python helpers *)

(** [enumerate(l)] *)
Fixpoint enumerate_from {A : Type} (i : Z) (l : list A) : list (Z * A) :=
  match l with
  | [] => []
  | x :: l' => (i, x) :: enumerate_from (i + 1) l'
  end.

Definition enumerate {A : Type} (l : list A) : list (Z * A) :=
  enumerate_from 0 l.

(** A [for] loop over [l] whose body may raise, threading the variables
    it assigns. *)
Fixpoint py_for {A S : Type} (l : list A) (s : S) (body : S -> A -> Py S) : Py S :=
  match l with
  | [] => Ret s
  | x :: l' => let* s' := body s x in py_for l' s' body
  end.

(** A [for] loop in a generator body. *)
Fixpoint gen_for {Y A S : Type} (l : list A) (s : S) (body : S -> A -> Gen Y S)
  : Gen Y S :=
  match l with
  | [] => gen_ret s
  | x :: l' => gen_bind (body s x) (fun s' => gen_for l' s' body)
  end.

(** Attribute access on an entry: every class has [obj_type]; a [Ref]
    has neither [prov] nor [text]. *)
Definition getattr_obj_type (item : Entry) : string :=
  match item with
  | ERef r => ref_obj_type r
  | EItem it => obj_type it
  end.

Definition getattr_prov (item : Entry) : Py (option (list Prov)) :=
  match item with
  | ERef _ => Raise AttributeError
  | EItem it => Ret (prov it)
  end.

Definition getattr_text (item : Entry) : Py (option string) :=
  match item with
  | ERef _ => Raise AttributeError
  | EItem it => Ret (text it)
  end.

(** [doc._resolve_ref(orig_item) if isinstance(orig_item, Ref)
     else orig_item] *)
Definition resolve (doc : LegacyDocument) (orig_item : Entry) : option Item :=
  match orig_item with
  | ERef r => _resolve_ref doc r
  | EItem it => Some it
  end.

(** *** The nested helpers *)

Section Generator.
Context `{Geo : Geometry}.

(** One iteration of the loop of [_process_page_segments]: [continue]
    leaves [segments] as it is. *)
Definition segment_step (page : Page) (segments : list Segment)
    (entry : Z * Entry) : Py (list Segment) :=
  let '(ix, item) := entry in
  let item_type := getattr_obj_type item in
  match label_to_doclaynet !! item_type with
  | None => Ret segments
  | Some label =>
      let* item_prov := getattr_prov item in
      match item_prov, size page with
      | None, _ => Ret segments
      | Some _, None => Ret segments
      | Some item_prov, Some page_size =>
          let* prov0 := py_index item_prov 0 in
          let new_bbox := item_bbox_normalized (bbox prov0) page_size in
          let* item_text := getattr_text item in
          let new_segment :=
            {| index_in_doc := ix;
               label := label;
               seg_text := match item_text with
                           | Some t => t
                           | None => ""
                           end;
               seg_bbox := new_bbox;
               data := match item with
                       | EItem {| table_html := Some table_html |} =>
                           [ {| html_seq := table_html; otsl_seq := "" |} ]
                       | _ => []
                       end |} in
          Ret (segments ++ [new_segment])
      end
  end.

(** [_process_page_segments(doc_items, page)] *)
Definition _process_page_segments (doc_items : list (Z * Entry)) (page : Page)
  : Py (list Segment) :=
  py_for doc_items [] (segment_step page).

(** [_process_page_cells(page)] *)
Definition _process_page_cells (page : Page) : list CellRecord :=
  match size page with
  | None => []
  | Some page_size =>
      map (fun cell =>
             {| rec_text := cell_text cell;
                rec_bbox := cell_bbox_normalized (rect cell) page_size;
                ocr := from_ocr cell;
                ocr_confidence := confidence cell |})
          (cells page)
  end.

(** The test of [_process_page] that the current run is the whole
    document: [start_ix == 0 and doc.main_text is not None and
    end_ix == len(doc.main_text) - 1]. *)
Definition spans_whole_document (doc : LegacyDocument) (st : Locals) : bool :=
  (start_ix st =? 0)
  && match main_text doc with
     | None => false
     | Some main_text => end_ix st =? len main_text - 1
     end.

(** [_process_page()], reading the locals [st] of the enclosing call. *)
Definition _process_page (doc_result : ConversionResult) (st : Locals)
  : Py PageTuple :=
  let doc := legacy_document doc_result in
  let page_ix := page_no st - 1 in
  let* page := py_index (pages doc_result) page_ix in
  let page_cells := _process_page_cells page in
  let* page_segments := _process_page_segments (doc_items st) page in
  let original_md := get_original_markdown doc_result in
  let content_md :=
    match original_md with
    | Some original_md =>
        if spans_whole_document doc st
        then original_md
        else export_to_markdown doc (start_ix st) (end_ix st)
    | None => export_to_markdown doc (start_ix st) (end_ix st)
    end in
  let content_dt :=
    export_to_document_tokens doc (start_ix st) (end_ix st) false in
  Ret {| t_content_text := content_text st;
         t_content_md := content_md;
         t_content_dt := content_dt;
         t_page_cells := page_cells;
         t_page_segments := page_segments;
         t_page := page |}.

(** [yield _process_page()] *)
Definition yield_process_page (doc_result : ConversionResult) (st : Locals)
  : Gen PageTuple unit :=
  (let* t := gen_lift (_process_page doc_result st) in gen_yield t)%gen.

(** *** [generate_multimodal_pages] *)

(** The first loop: is there an element with a non-empty [prov]? *)
Definition carries_prov (item : option Item) : bool :=
  match item with
  | Some {| prov := Some (_ :: _) |} => true
  | _ => false
  end.

Definition has_items_with_pages (doc : LegacyDocument) (main_text : list Entry)
  : bool :=
  existsb (fun orig_item => carries_prov (resolve doc orig_item)) main_text.

(** The plain text gathered when a page is synthesized:
    [if resolved_item and resolved_item.text: content_text += ... + " "]. *)
Definition synthesized_content_text (doc : LegacyDocument)
    (main_text : list Entry) : string :=
  fold_left
    (fun content_text item =>
       match resolve doc item with
       | Some {| text := Some t |} =>
           if String.eqb t "" then content_text
           else (content_text ++ t ++ " ")%string
       | _ => content_text
       end)
    main_text "".

(** [PageClass(page_no=1, size=Size(width=210, height=297), cells=[])] *)
Definition dummy_page : Page :=
  {| page_no_of := 1;
     size := Some {| width := Qmake 210 1; height := Qmake 297 1 |};
     cells := [] |}.

(** The branch for a document none of whose elements has a page. *)
Definition single_page_branch (doc_result : ConversionResult)
    (main_text : list Entry) : Gen PageTuple unit :=
  let doc := legacy_document doc_result in
  let st := {| content_text := "";
               page_no := 1;
               start_ix := 0;
               end_ix := len main_text - 1;
               doc_items := enumerate main_text |} in
  match pages doc_result with
  | [] =>
      let content_text := synthesized_content_text doc main_text in
      let content_md :=
        match get_original_markdown doc_result with
        | Some original_md => original_md
        | None => export_to_markdown doc (start_ix st) (end_ix st)
        end in
      let content_dt :=
        export_to_document_tokens doc (start_ix st) (end_ix st) false in
      gen_yield {| t_content_text := content_text;
                   t_content_md := content_md;
                   t_content_dt := content_dt;
                   t_page_cells := [];
                   t_page_segments := [];
                   t_page := dummy_page |}
  | _ :: _ => yield_process_page doc_result st
  end.

(** The body of the main loop, for the element [orig_item] at index
    [ix]. *)
Definition page_loop_body (doc_result : ConversionResult) (st : Locals)
    (entry : Z * Entry) : Gen PageTuple Locals :=
  let doc := legacy_document doc_result in
  let '(ix, orig_item) := entry in
  match resolve doc orig_item with
  | Some ({| prov := Some (prov0 :: _) |} as item) =>
      let item_page := page prov0 in
      (let* st :=
         if (0 <? page_no st) && (page_no st <? item_page)
         then
           yield_process_page doc_result st ;;
           gen_ret {| content_text := "";
                      page_no := page_no st;
                      start_ix := ix;
                      end_ix := end_ix st;
                      doc_items := [] |}
         else gen_ret st in
       gen_ret {| content_text :=
                    match text item with
                    | Some t =>
                        if String.eqb t "" then content_text st
                        else (content_text st ++ t ++ " ")%string
                    | None => content_text st
                    end;
                  page_no := item_page;
                  start_ix := start_ix st;
                  end_ix := ix;
                  doc_items := doc_items st ++ [(ix, EItem item)] |})%gen
  | _ => gen_ret st
  end.

(** [generate_multimodal_pages(doc_result)] *)
Definition generate_multimodal_pages (doc_result : ConversionResult)
  : Gen PageTuple unit :=
  let st := {| content_text := "";
               page_no := 0;
               start_ix := 0;
               end_ix := 0;
               doc_items := [] |} in
  let doc := legacy_document doc_result in
  match main_text doc with
  | None => gen_ret tt
  | Some main_text =>
      if negb (has_items_with_pages doc main_text)
      then single_page_branch doc_result main_text
      else
        (let* st := gen_for (enumerate main_text) st
                            (page_loop_body doc_result) in
         if 0 <? len (doc_items st)
         then yield_process_page doc_result st
         else gen_ret tt)%gen
  end.

(** *** The page runs of a document

    The values of the locals at each [yield _process_page()] of the main
    loop, computed without building any page: [advance] is the effect of
    one iteration on the locals, together with the run it closes, if any;
    [page_runs] adds the run still open when the loop ends. *)

Definition initial_locals : Locals :=
  {| content_text := "";
     page_no := 0;
     start_ix := 0;
     end_ix := 0;
     doc_items := [] |}.

Definition advance (doc : LegacyDocument) (st : Locals) (entry : Z * Entry)
  : list Locals * Locals :=
  let '(ix, orig_item) := entry in
  match resolve doc orig_item with
  | Some ({| prov := Some (prov0 :: _) |} as item) =>
      let complete := (0 <? page_no st) && (page_no st <? page prov0) in
      let st1 :=
        if complete
        then {| content_text := "";
                page_no := page_no st;
                start_ix := ix;
                end_ix := end_ix st;
                doc_items := [] |}
        else st in
      (if complete then [st] else [],
       {| content_text :=
            match text item with
            | Some t =>
                if String.eqb t "" then content_text st1
                else (content_text st1 ++ t ++ " ")%string
            | None => content_text st1
            end;
          page_no := page prov0;
          start_ix := start_ix st1;
          end_ix := ix;
          doc_items := doc_items st1 ++ [(ix, EItem item)] |})
  | _ => ([], st)
  end.

Fixpoint closed_runs (doc : LegacyDocument) (st : Locals)
    (entries : list (Z * Entry)) : list Locals * Locals :=
  match entries with
  | [] => ([], st)
  | entry :: entries' =>
      let '(closed, st1) := advance doc st entry in
      let '(closed', st2) := closed_runs doc st1 entries' in
      (closed ++ closed', st2)
  end.

Definition page_runs (doc : LegacyDocument) (main_text : list Entry)
  : list Locals :=
  let '(closed, st) := closed_runs doc initial_locals (enumerate main_text) in
  closed ++ (if 0 <? len (doc_items st) then [st] else []).

(** Yielding [_process_page()] at each of the given locals in turn. *)
Fixpoint emit_runs (doc_result : ConversionResult) (runs : list Locals)
  : Gen PageTuple unit :=
  match runs with
  | [] => gen_ret tt
  | st :: runs' =>
      (yield_process_page doc_result st ;; emit_runs doc_result runs')%gen
  end.

End Generator.

(** *** Reading the page runs

    What the main loop keeps of the document, stated on the elements
    themselves. *)

(** The pair that the main loop appends to [doc_items] for an entry of
    [enumerate(doc.main_text)], when it does not skip it: the element
    must resolve to one with a non-empty [prov]. *)
Definition located (doc : LegacyDocument) (entry : Z * Entry)
  : option (Z * Entry) :=
  match resolve doc (snd entry) with
  | Some ({| prov := Some (_ :: _) |} as item) => Some (fst entry, EItem item)
  | _ => None
  end.

Definition located_items (doc : LegacyDocument) (entries : list (Z * Entry))
  : list (Z * Entry) :=
  omap (located doc) entries.

(** What an element adds to [content_text]: its text and one space, when
    the text is neither [None] nor empty. *)
Definition text_piece (t : option string) : string :=
  match t with
  | Some t => if String.eqb t "" then "" else (t ++ " ")%string
  | None => ""
  end.

Definition entry_piece (e : Entry) : string :=
  match e with
  | EItem it => text_piece (text it)
  | ERef _ => ""
  end.

(** The same for an entry of [main_text] read through [resolve]. *)
Definition resolved_piece (doc : LegacyDocument) (e : Entry) : string :=
  match resolve doc e with
  | Some it => text_piece (text it)
  | None => ""
  end.

Fixpoint page_text (items : list (Z * Entry)) : string :=
  match items with
  | [] => ""
  | (_, e) :: items' => (entry_piece e ++ page_text items')%string
  end.

(** An element recorded by the main loop: resolved, with a first
    provenance record. *)
Definition located_entry (x : Z * Entry) : Prop :=
  exists it p ps, snd x = EItem it /\ prov it = Some (p :: ps).

(** One run ends before the other starts. *)
Definition run_before (a b : Locals) : Prop := end_ix a < start_ix b.

(** What the main loop keeps true of its locals before it looks at the
    element of index [i]. *)
Definition locals_inv (i : Z) (st : Locals) : Prop :=
  0 <= start_ix st /\ start_ix st <= end_ix st /\ start_ix st <= i /\
  (doc_items st <> [] -> end_ix st < i) /\
  (doc_items st = [] -> page_no st = 0) /\
  Forall (fun x => located_entry x /\ start_ix st <= fst x <= end_ix st)
         (doc_items st) /\
  content_text st = page_text (doc_items st).

(** An element at which the loop of [_process_page_segments] raises: its
    type has a label, and it is a reference (no [prov] attribute), or
    its [prov] is an empty list while the page has a size (so that
    [prov[0]] is evaluated). *)
Definition stops_segments (page : Page) (e : Entry) : bool :=
  match label_to_doclaynet !! getattr_obj_type e with
  | None => false
  | Some _ =>
      match e with
      | ERef _ => true
      | EItem it =>
          match prov it, size page with
          | Some [], Some _ => true
          | _, _ => false
          end
      end
  end.

(** The page number of the first provenance record of a located
    element. *)
Definition entry_page (x : Z * Entry) : option Z :=
  match snd x with
  | EItem {| prov := Some (p :: _) |} => Some (page p)
  | _ => None
  end.

End PageExport.

(** ** Sample data *)

Module Samples.
Import Chunking.

Definition newline : string := String (Ascii.ascii_of_nat 10) "".

(** The rendering of a node by the sample serializer. *)
Definition render_ref (d : DocItem) : SerializationResult :=
  mk_SerializationResult (self_ref d).

(** A base serializer to run the adapter on.  Its constructor accepts
    the keyword [params] only.  The document-level entry point joins the
    non-empty texts of the parts with a blank line.  The node-level one
    renders the reference of an element; for the whole document ([item]
    [None], or the body) it renders every element and hands the parts to
    the document-level method of the object it runs on. *)
Definition joining_init (doc : DoclingDocument) (kwargs : Kwargs) : Py unit :=
  if forallb (fun k => String.eqb k "params") (map fst (map_to_list kwargs))
  then Ret tt
  else Raise ValidationError.

Definition joining_serializer : ChunkingDocSerializer :=
  {| super_init := joining_init;
     super_init_doc_only := fun _ => eq_refl;
     super_serialize_doc := fun _ _ parts _ =>
       Ret (mk_SerializationResult
              (String.concat (newline ++ newline)%string
                 (filter (fun t => negb (String.eqb t ""))
                         (map sr_text parts))));
     super_serialize := fun self_serialize_doc doc _ item _ _ _ kwargs =>
       let whole :=
         self_serialize_doc
           (map (fun e => render_ref (unwrap_item e)) (iterate_items doc))
           kwargs in
       match item with
       | None => whole
       | Some (NGroupItem g) =>
           if String.eqb (group_ref g) (group_ref (body doc)) then whole
           else Ret (mk_SerializationResult "")
       | Some (NDocItem d) => Ret (render_ref d)
       end |}.

Definition title_item : DocItem := {| self_ref := "#/texts/0" |}.
Definition para_item : DocItem := {| self_ref := "#/texts/1" |}.
Definition body_item : GroupItem := {| group_ref := "#/body" |}.

Definition md_origin : DocumentOrigin :=
  {| mimetype := "text/markdown"; binary_hash := 12345; filename := "test.md" |}.

(** A Markdown document that carries its source text. *)
Definition md_doc : DoclingDocument :=
  {| get_original_markdown := Some (Some "**天数**：7天");
     export_to_markdown := "**天数**: 7天";
     iterate_items := [ItemTuple title_item 1];
     body := body_item;
     origin := Some md_origin |}.

(** The same document with two elements. *)
Definition md_doc2 : DoclingDocument :=
  {| get_original_markdown := Some (Some "# Title  **天数**：7天");
     export_to_markdown := "# Title **天数**: 7天";
     iterate_items := [ItemTuple title_item 1; BareItem para_item];
     body := body_item;
     origin := Some md_origin |}.

(** A plain document: no [get_original_markdown] attribute, no element. *)
Definition plain_doc : DoclingDocument :=
  {| get_original_markdown := None;
     export_to_markdown := "";
     iterate_items := [];
     body := body_item;
     origin := Some md_origin |}.


(** A document with stored text and no element. *)
Definition empty_md_doc : DoclingDocument :=
  {| get_original_markdown := Some (Some " ");
     export_to_markdown := "";
     iterate_items := [];
     body := body_item;
     origin := Some md_origin |}.

(** A document whose method is there and returns [None]. *)
Definition unset_doc : DoclingDocument :=
  {| get_original_markdown := Some None;
     export_to_markdown := "recomposed";
     iterate_items := [BareItem para_item];
     body := body_item;
     origin := None |}.

(** The serializers that [__init__] builds over [md_doc] and [md_doc2]. *)
Definition md_serializer : OriginalMarkdownChunkingDocSerializer :=
  {| ser_doc := md_doc; ser_kwargs := ∅;
     _original_content := Some "**天数**：7天" |}.

Definition md_serializer2 : OriginalMarkdownChunkingDocSerializer :=
  {| ser_doc := md_doc2; ser_kwargs := ∅;
     _original_content := Some "# Title  **天数**：7天" |}.

Definition title_part : SerializationResult := mk_SerializationResult "# Title".
Definition text_part : SerializationResult :=
  mk_SerializationResult "**天数**: 7天".

(** Constructor arguments with a keyword that the sample base model
    does not declare. *)
Definition unknown_kwargs : Kwargs := {[ "foo" := PyInt 1 ]}.

End Samples.

(** Sample data for the page export. *)

Module PageSamples.
Import PageExport.

(** A geometry to run the export on: a box given from the bottom-left
    corner is flipped to the top-left one and scaled by the page size. *)
Definition scaling_geometry : Geometry :=
  {| item_bbox_normalized := fun '(l, b, r, t) page_size =>
       (Qdiv l (width page_size),
        Qdiv (Qminus (height page_size) t) (height page_size),
        Qdiv r (width page_size),
        Qdiv (Qminus (height page_size) b) (height page_size));
     cell_bbox_normalized := fun rect page_size =>
       match rect with
       | [l; t; r; b] =>
           (Qdiv l (width page_size), Qdiv t (height page_size),
            Qdiv r (width page_size), Qdiv b (height page_size))
       | _ => (Qmake 0 1, Qmake 0 1, Qmake 0 1, Qmake 0 1)
       end |}.

Definition letter : Size := {| width := Qmake 612 1; height := Qmake 792 1 |}.

Definition box : BBoxTuple := (Qmake 72 1, Qmake 700 1, Qmake 540 1, Qmake 720 1).

(** A paragraph located on page [p]. *)
Definition para_on (p : Z) (t : string) : Entry :=
  EItem {| obj_type := "paragraph";
           prov := Some [ {| bbox := box; page := p |} ];
           text := Some t;
           table_html := None |}.

(** A paragraph without provenance, as the Markdown backend produces. *)
Definition para (t : string) : Entry :=
  EItem {| obj_type := "paragraph"; prov := None; text := Some t;
           table_html := None |}.

(** A reference to a table that resolves to nothing. *)
Definition table_ref : Entry :=
  ERef {| ref_name := "Table"; ref_obj_type := "table"; ref := "#/tables/0" |}.

Definition entry_text (e : Entry) : string :=
  match e with
  | EItem {| text := Some t |} => t
  | _ => ""
  end.

(** A recomposed export of the entries with index in [start .. stop]. *)
Definition sample_export (entries : list Entry) (start stop : Z) : string :=
  String.concat "|"
    (map entry_text
       (take (Z.to_nat (stop - start + 1)) (drop (Z.to_nat start) entries))).

Definition legacy_of (entries : option (list Entry)) : LegacyDocument :=
  {| main_text := entries;
     _resolve_ref := fun _ => None;
     export_to_markdown :=
       sample_export (match entries with Some l => l | None => [] end);
     export_to_document_tokens := fun start stop _ =>
       ("<document>"
        ++ sample_export (match entries with Some l => l | None => [] end)
             start stop
        ++ "</document>")%string |}.

Definition page_record (n : Z) : Page :=
  {| page_no_of := n; size := Some letter; cells := [] |}.

Definition three_paras : list Entry :=
  [para_on 1 "one"; para_on 1 "two"; para_on 2 "three"].

(** Three paragraphs over two pages, with stored original text. *)
Definition two_page_result : ConversionResult :=
  {| legacy_document := legacy_of (Some three_paras);
     pages := [page_record 1; page_record 2];
     get_original_markdown := Some "one  two  three" |}.

Definition one_page_paras : list Entry := [para_on 1 "one"; para_on 1 "two"].

(** Two paragraphs on one page, with stored original text. *)
Definition one_page_result : ConversionResult :=
  {| legacy_document := legacy_of (Some one_page_paras);
     pages := [page_record 1];
     get_original_markdown := Some "one  two" |}.

Definition md_paras : list Entry := [para "**天数**"; para "7天"].

(** A Markdown conversion: no provenance, no page record. *)
Definition markdown_result : ConversionResult :=
  {| legacy_document := legacy_of (Some md_paras);
     pages := [];
     get_original_markdown := Some "**天数**：7天" |}.

(** The same elements with a page record. *)
Definition markdown_result_with_page : ConversionResult :=
  {| legacy_document := legacy_of (Some md_paras);
     pages := [page_record 1];
     get_original_markdown := Some "**天数**：7天" |}.

(** A page record and an unresolved table reference among the elements. *)
Definition table_ref_result : ConversionResult :=
  {| legacy_document := legacy_of (Some [para "one"; table_ref]);
     pages := [page_record 1];
     get_original_markdown := Some "one" |}.

(** A conversion result whose legacy document has no [main_text]. *)
Definition empty_result : ConversionResult :=
  {| legacy_document := legacy_of None;
     pages := [page_record 1];
     get_original_markdown := Some "text" |}.

(** The two-page document without stored original text. *)
Definition two_page_result_plain : ConversionResult :=
  {| legacy_document := legacy_of (Some three_paras);
     pages := [page_record 1; page_record 2];
     get_original_markdown := None |}.

(** A page record with one OCR cell. *)
Definition cell_page : Page :=
  {| page_no_of := 1;
     size := Some letter;
     cells := [ {| cell_text := "cell";
                   rect := [Qmake 72 1; Qmake 80 1; Qmake 100 1; Qmake 92 1];
                   from_ocr := true;
                   confidence := Qmake 95 100 |} ] |}.

Definition cells_result : ConversionResult :=
  {| legacy_document := legacy_of (Some md_paras);
     pages := [cell_page];
     get_original_markdown := Some "**天数**：7天" |}.

(** The tuple that the generator yields for [cells_result]. *)
Definition cells_tuple : PageTuple :=
  {| t_content_text := "";
     t_content_md := "**天数**：7天";
     t_content_dt := "<document>**天数**|7天</document>";
     t_page_cells :=
       [ {| rec_text := "cell";
            rec_bbox := cell_bbox_normalized (Geometry := scaling_geometry)
                          [Qmake 72 1; Qmake 80 1; Qmake 100 1; Qmake 92 1]
                          letter;
            ocr := true;
            ocr_confidence := Qmake 95 100 |} ];
     t_page_segments := [];
     t_page := cell_page |}.

(** A table located on page 1, and the elements of a page holding it. *)
Definition table_on_page_1 : Item :=
  {| obj_type := "table";
     prov := Some [ {| bbox := box; page := 1 |} ];
     text := None;
     table_html := Some "<table></table>" |}.

Definition table_page_items : list (Z * Entry) :=
  [ (0, para_on 1 "one"); (1, table_ref); (2, EItem table_on_page_1);
    (3, EItem {| obj_type := "unknown";
                 prov := Some [ {| bbox := box; page := 1 |} ];
                 text := Some "x"; table_html := None |}) ].

(** The segments when the reference is left out: the paragraph and the
    table; the element of unknown type gives none. *)
Definition table_page_segments : list Segment :=
  [ {| index_in_doc := 0; label := "text"; seg_text := "one";
       seg_bbox := item_bbox_normalized (Geometry := scaling_geometry)
                     box letter;
       data := [] |};
    {| index_in_doc := 2; label := "table"; seg_text := "";
       seg_bbox := item_bbox_normalized (Geometry := scaling_geometry)
                     box letter;
       data := [ {| html_seq := "<table></table>"; otsl_seq := "" |} ] |} ].

(** The tuple that the generator yields for [markdown_result_with_page]. *)
Definition markdown_page_tuple : PageTuple :=
  {| t_content_text := "";
     t_content_md := "**天数**：7天";
     t_content_dt := "<document>**天数**|7天</document>";
     t_page_cells := [];
     t_page_segments := [];
     t_page := page_record 1 |}.

(** A page record, and an element whose [prov] is an empty list. *)
Definition empty_prov_result : ConversionResult :=
  {| legacy_document :=
       legacy_of (Some [ EItem {| obj_type := "paragraph"; prov := Some [];
                                  text := Some "one"; table_html := None |} ]);
     pages := [page_record 1];
     get_original_markdown := Some "one" |}.

End PageSamples.

(** ** Properties of the chunking adapters *)

Section ChunkingProperties.
Import Chunking Samples.
Context `{Base : ChunkingDocSerializer}.

Lemma try_except_AttributeError_caught {A : Type} (handler : Py A) :
  try_except_AttributeError (Raise AttributeError) handler = handler.
Proof. reflexivity. Qed.

Lemma try_except_AttributeError_returns {A : Type} (a : A) (handler : Py A) :
  try_except_AttributeError (Ret a) handler = Ret a.
Proof. reflexivity. Qed.

Lemma try_except_AttributeError_propagates {A : Type} (e : exn) (handler : Py A) :
  e <> AttributeError ->
  try_except_AttributeError (Raise e) handler = Raise e.
Proof. intros Hne. destruct e; [contradiction|reflexivity..]. Qed.

(** The constructor returns exactly when the base constructor does, and
    then caches what the retrieval returned, or [None] when the
    attribute is missing; an error of the base constructor is the
    constructor's. *)
Lemma init_outcome (doc : DoclingDocument) (kwargs : Kwargs) :
  __init__ doc kwargs =
  match super_init doc kwargs with
  | Ret _ =>
      Ret {| ser_doc := doc; ser_kwargs := kwargs;
             _original_content := match get_original_markdown doc with
                                  | Some r => r
                                  | None => None
                                  end |}
  | Raise e => Raise e
  end.
Proof.
  unfold __init__, call_get_original_markdown.
  destruct (super_init doc kwargs) as [[]|e]; [|reflexivity]. cbn [py_bind].
  destruct (get_original_markdown doc) as [r|]; reflexivity.
Qed.

Lemma collect_doc_items_acc (entries : list IterateEntry) (acc : list NodeItem) :
  fold_left (fun items item_tuple =>
               items ++ [NDocItem (unwrap_item item_tuple)])
            entries acc
  = acc ++ map (fun e => NDocItem (unwrap_item e)) entries.
Proof.
  revert acc. induction entries as [|e entries IH]; intros acc; simpl.
  - now rewrite app_nil_r.
  - rewrite IH. now rewrite <- app_assoc.
Qed.

Lemma collect_doc_items_map (entries : list IterateEntry) :
  collect_doc_items entries = map (fun e => NDocItem (unwrap_item e)) entries.
Proof. unfold collect_doc_items. now rewrite collect_doc_items_acc. Qed.

Lemma as_doc_items_of_elements (entries : list IterateEntry) :
  as_doc_items (map (fun e => NDocItem (unwrap_item e)) entries)
  = Some (map unwrap_item entries).
Proof.
  induction entries as [|e entries IH]; cbn [map as_doc_items]; [reflexivity|].
  now rewrite IH.
Qed.

(** The chunk operation on a document with elements yields one chunk and
    ends normally; on a document without elements [DocMeta] refuses the
    root, and nothing is yielded. *)
Lemma chunk_outcome (doc : DoclingDocument) :
  chunk doc =
  match iterate_items doc with
  | [] => MkGen [] (Raise ValidationError)
  | _ :: _ =>
      MkGen
        [ {| chunk_text := chosen_text doc;
             chunk_meta :=
               {| doc_items := map unwrap_item (iterate_items doc);
                  meta_origin := origin doc |} |} ]
        (Ret tt)
  end.
Proof.
  unfold chunk, call_get_original_markdown, chosen_text.
  rewrite collect_doc_items_map.
  destruct (iterate_items doc) as [|e entries] eqn:Hitems.
  - destruct (get_original_markdown doc) as [[content|]|]; reflexivity.
  - cbn [map]. unfold DocMeta_init. cbn [as_doc_items].
    rewrite as_doc_items_of_elements.
    destruct (get_original_markdown doc) as [[content|]|]; reflexivity.
Qed.

(** C1 (as amended): a serializer constructed over a document with stored
    original text returns exactly that text from [serialize_doc] whenever
    it is given more than one part; given zero or one part it returns
    what the base serializer recomposes. *)
Theorem serialize_doc_original_for_several_parts
    (doc : DoclingDocument) (kwargs : Kwargs) (original : string)
    (self : OriginalMarkdownChunkingDocSerializer) :
  call_get_original_markdown doc = Ret (Some original) ->
  __init__ doc kwargs = Ret self ->
  _original_content self = Some original /\
  (forall parts kw, 1 < len parts ->
     serialize_doc self parts kw = Ret (mk_SerializationResult original)) /\
  (forall parts kw, len parts <= 1 ->
     serialize_doc self parts kw = super_serialize_doc doc kwargs parts kw).
Proof.
  intros Hget Hinit. rewrite init_outcome in Hinit.
  destruct (super_init doc kwargs) as [[]|e]; [|discriminate].
  injection Hinit as <-.
  unfold call_get_original_markdown in Hget.
  destruct (get_original_markdown doc) as [r|]; [|discriminate].
  injection Hget as ->. cbn.
  split; [reflexivity|]. split; intros parts kw Hlen; unfold serialize_doc; cbn.
  - apply Z.ltb_lt in Hlen. now rewrite Hlen.
  - apply Z.ltb_ge in Hlen. now rewrite Hlen.
Qed.

(** C2: [serialize_doc] returns the cached original text when that text
    is not [None] and there is more than one part, and in every other
    case (no cached text, or at most one part) exactly what the base
    serializer's [serialize_doc] returns on the same arguments. *)
Theorem serialize_doc_decision
    (self : OriginalMarkdownChunkingDocSerializer)
    (parts : list SerializationResult) (kwargs : Kwargs) :
  (forall original,
     _original_content self = Some original -> 1 < len parts ->
     serialize_doc self parts kwargs = Ret (mk_SerializationResult original))
  /\
  (_original_content self = None \/ len parts <= 1 ->
   serialize_doc self parts kwargs
   = super_serialize_doc (ser_doc self) (ser_kwargs self) parts kwargs).
Proof.
  unfold serialize_doc. split.
  - intros original -> Hlen. apply Z.ltb_lt in Hlen. now rewrite Hlen.
  - intros [-> | Hlen]; [reflexivity|].
    apply Z.ltb_ge in Hlen. rewrite Hlen.
    now destruct (_original_content self).
Qed.

(** C3 (the code at the failing input): for a document with stored
    original text and no element, the chunk operation yields no chunk:
    [DocMeta] raises [ValidationError] on the root element, after the
    text has been chosen. *)
Theorem chunk_with_stored_text_and_no_element_raises
    (doc : DoclingDocument) (original : string) :
  call_get_original_markdown doc = Ret (Some original) ->
  iterate_items doc = [] ->
  chunk doc = MkGen [] (Raise ValidationError).
Proof.
  intros _ Hitems. rewrite chunk_outcome. now rewrite Hitems.
Qed.

(** C4 (the code at the failing input): when the document exposes no
    element, the fallback list holding the root is refused by [DocMeta],
    the root being a group and not a [DocItem]; the chunk operation
    raises [ValidationError] and yields nothing. *)
Theorem chunk_without_elements_raises (doc : DoclingDocument) :
  iterate_items doc = [] ->
  DocMeta_init [NGroupItem (body doc)] (origin doc) = Raise ValidationError /\
  chunk doc = MkGen [] (Raise ValidationError).
Proof.
  intros Hitems. split; [reflexivity|].
  rewrite chunk_outcome. now rewrite Hitems.
Qed.



End ChunkingProperties.

(** ** Properties of the page export utility *)

Section GeneratorLaws.
Context {Y : Type}.

Lemma gen_bind_ret_l {A B : Type} (a : A) (k : A -> Gen Y B) :
  gen_bind (gen_ret a) k = k a.
Proof. unfold gen_bind. cbn. now destruct (k a). Qed.

Lemma gen_bind_ret_r (m : Gen Y unit) :
  gen_bind m (fun _ => gen_ret tt) = m.
Proof.
  destruct m as [ys [[]|e]]; unfold gen_bind; cbn; [|reflexivity].
  now rewrite app_nil_r.
Qed.

Lemma gen_bind_assoc {A B C : Type}
    (m : Gen Y A) (k : A -> Gen Y B) (h : B -> Gen Y C) :
  gen_bind (gen_bind m k) h = gen_bind m (fun a => gen_bind (k a) h).
Proof.
  destruct m as [ys [a|e]]; unfold gen_bind; cbn; [|reflexivity].
  destruct (k a) as [ys' [b|e']]; cbn; [|reflexivity].
  destruct (h b) as [ys'' r]; cbn. now rewrite app_assoc.
Qed.

Lemma gen_bind_ext {A B : Type} (m : Gen Y A) (k k' : A -> Gen Y B) :
  (forall a, k a = k' a) -> gen_bind m k = gen_bind m k'.
Proof.
  intros Hk. destruct m as [ys [a|e]]; unfold gen_bind; cbn; [|reflexivity].
  now rewrite Hk.
Qed.

End GeneratorLaws.

Section PageExportProperties.
Import PageExport.
Context `{Geo : Geometry}.

Lemma emit_runs_app (cr : ConversionResult) (runs runs' : list Locals) :
  emit_runs cr (runs ++ runs')
  = gen_bind (emit_runs cr runs) (fun _ => emit_runs cr runs').
Proof.
  induction runs as [|st runs IH]; cbn [app emit_runs].
  - now rewrite gen_bind_ret_l.
  - rewrite gen_bind_assoc. apply gen_bind_ext. intros _. exact IH.
Qed.

(** One iteration of the main loop emits the run that [advance] closes
    and leaves the locals that [advance] computes. *)
Lemma page_loop_body_advance (cr : ConversionResult) (st : Locals)
    (entry : Z * Entry) :
  page_loop_body cr st entry
  = gen_bind (emit_runs cr (fst (advance (legacy_document cr) st entry)))
             (fun _ => gen_ret (snd (advance (legacy_document cr) st entry))).
Proof.
  destruct entry as [ix orig_item]. unfold page_loop_body, advance.
  destruct (resolve (legacy_document cr) orig_item)
    as [[ot [[|prov0 provs]|] tx th]|]; cbn [fst snd emit_runs];
    try (now rewrite gen_bind_ret_l).
  destruct ((0 <? page_no st) && (page_no st <? page prov0));
    cbn [fst snd emit_runs].
  - rewrite !gen_bind_assoc. apply gen_bind_ext. intros _.
    now rewrite !gen_bind_ret_l.
  - now rewrite !gen_bind_ret_l.
Qed.

Lemma page_loop_closed_runs (cr : ConversionResult)
    (entries : list (Z * Entry)) (st : Locals) :
  gen_for entries st (page_loop_body cr)
  = gen_bind (emit_runs cr (fst (closed_runs (legacy_document cr) st entries)))
      (fun _ => gen_ret (snd (closed_runs (legacy_document cr) st entries))).
Proof.
  revert st. induction entries as [|entry entries IH]; intros st.
  - cbn [gen_for closed_runs fst snd emit_runs]. now rewrite gen_bind_ret_l.
  - cbn [gen_for closed_runs]. rewrite page_loop_body_advance.
    destruct (advance (legacy_document cr) st entry) as [closed st1].
    cbn [fst snd]. rewrite gen_bind_assoc.
    specialize (IH st1).
    destruct (closed_runs (legacy_document cr) st1 entries) as [closed' st2].
    cbn [fst snd] in *. rewrite emit_runs_app, gen_bind_assoc.
    apply gen_bind_ext. intros _. rewrite gen_bind_ret_l. exact IH.
Qed.

(** In the paginated branch the generator yields [_process_page()] at
    the page runs of the document, in order, up to the first one that
    raises. *)
Lemma generate_paginated (cr : ConversionResult) (mt : list Entry) :
  main_text (legacy_document cr) = Some mt ->
  has_items_with_pages (legacy_document cr) mt = true ->
  generate_multimodal_pages cr = emit_runs cr (page_runs (legacy_document cr) mt).
Proof.
  intros Hmt Hhas. unfold generate_multimodal_pages, page_runs.
  rewrite Hmt, Hhas. cbn [negb].
  change {| content_text := ""; page_no := 0; start_ix := 0; end_ix := 0;
            doc_items := [] |} with initial_locals.
  rewrite page_loop_closed_runs.
  destruct (closed_runs (legacy_document cr) initial_locals (enumerate mt))
    as [closed st]. cbn [fst snd].
  rewrite gen_bind_assoc, emit_runs_app. apply gen_bind_ext. intros _.
  rewrite gen_bind_ret_l.
  destruct (0 <? len (doc_items st)); cbn [emit_runs]; [|reflexivity].
  now rewrite gen_bind_ret_r.
Qed.

(** What [_process_page()] puts in the tuple when it returns. *)
Lemma process_page_fields (cr : ConversionResult) (st : Locals) (tup : PageTuple) :
  _process_page cr st = Ret tup ->
  t_content_text tup = content_text st /\
  t_content_md tup =
    match get_original_markdown cr with
    | Some original_md =>
        if spans_whole_document (legacy_document cr) st
        then original_md
        else export_to_markdown (legacy_document cr) (start_ix st) (end_ix st)
    | None => export_to_markdown (legacy_document cr) (start_ix st) (end_ix st)
    end /\
  py_index (pages cr) (page_no st - 1) = Ret (t_page tup).
Proof.
  unfold _process_page.
  destruct (py_index (pages cr) (page_no st - 1)) as [page|e]; [|discriminate].
  cbn [py_bind].
  destruct (_process_page_segments (doc_items st) page) as [segments|e];
    [|discriminate].
  cbn [py_bind]. intros [= <-]. cbn. auto.
Qed.

(** [_process_page()] returns as soon as the page exists and its
    segments can be built. *)
Lemma process_page_returns (cr : ConversionResult) (st : Locals)
    (page : Page) (segments : list Segment) :
  py_index (pages cr) (page_no st - 1) = Ret page ->
  _process_page_segments (doc_items st) page = Ret segments ->
  exists tup, _process_page cr st = Ret tup /\ t_page tup = page.
Proof.
  intros Hpage Hseg. unfold _process_page. rewrite Hpage. cbn [py_bind].
  rewrite Hseg. cbn [py_bind]. eexists. split; reflexivity.
Qed.

Lemma yield_process_page_cases (cr : ConversionResult) (st : Locals) :
  yield_process_page cr st =
  match _process_page cr st with
  | Ret tup => MkGen [tup] (Ret tt)
  | Raise e => MkGen [] (Raise e)
  end.
Proof.
  unfold yield_process_page, gen_bind, gen_lift, gen_yield. cbn.
  now destruct (_process_page cr st).
Qed.

Lemma emit_runs_cons (cr : ConversionResult) (st : Locals) (runs : list Locals) :
  emit_runs cr (st :: runs) =
  match _process_page cr st with
  | Ret tup => MkGen (tup :: yielded (emit_runs cr runs))
                     (ended (emit_runs cr runs))
  | Raise e => MkGen [] (Raise e)
  end.
Proof.
  cbn [emit_runs]. rewrite yield_process_page_cases.
  now destruct (_process_page cr st).
Qed.

(** The pages yielded over a list of runs are the results of
    [_process_page()] on an initial part of that list; all of it when
    the generator ends normally. *)
Lemma emit_runs_yielded (cr : ConversionResult) (runs : list Locals) :
  Forall2 (fun st tup => _process_page cr st = Ret tup)
          (take (length (yielded (emit_runs cr runs))) runs)
          (yielded (emit_runs cr runs)) /\
  (length (yielded (emit_runs cr runs)) <= length runs)%nat /\
  (ended (emit_runs cr runs) = Ret tt ->
   length (yielded (emit_runs cr runs)) = length runs) /\
  (Forall (fun st => exists tup, _process_page cr st = Ret tup) runs ->
   ended (emit_runs cr runs) = Ret tt).
Proof.
  induction runs as [|st runs (IH1 & IH2 & IH3 & IH4)].
  - cbn. repeat split; auto.
  - rewrite emit_runs_cons.
    destruct (_process_page cr st) as [tup|e] eqn:Hpage; cbn.
    + repeat split.
      * constructor; assumption.
      * lia.
      * intros Hend. now rewrite IH3.
      * intros Hall. apply IH4. now inversion Hall.
    + repeat split; try constructor; try lia; try discriminate.
      intros Hall. inversion Hall as [|? ? [tup Htup] ?]. congruence.
Qed.

Lemma py_index_head {A : Type} (x : A) (l : list A) :
  py_index (x :: l) 0 = Ret x.
Proof.
  unfold py_index. cbn [length].
  replace (0 <? 0) with false by reflexivity.
  assert ((Z.of_nat (S (length l)) <=? 0) = false) as -> by (apply Z.leb_gt; lia).
  reflexivity.
Qed.

Lemma spans_whole_document_iff (doc : LegacyDocument) (mt : list Entry)
    (st : Locals) :
  main_text doc = Some mt ->
  (spans_whole_document doc st = true <->
   start_ix st = 0 /\ end_ix st = len mt - 1).
Proof.
  intros Hmt. unfold spans_whole_document. rewrite Hmt.
  rewrite andb_true_iff, !Z.eqb_eq. reflexivity.
Qed.

(** Without an element that carries provenance, the generator is the
    single-page branch. *)
Lemma generate_single_page (cr : ConversionResult) (mt : list Entry) :
  main_text (legacy_document cr) = Some mt ->
  has_items_with_pages (legacy_document cr) mt = false ->
  generate_multimodal_pages cr = single_page_branch cr mt.
Proof.
  intros Hmt Hhas. unfold generate_multimodal_pages. now rewrite Hmt, Hhas.
Qed.

(** The locals with which the single-page branch calls
    [_process_page()]. *)
Lemma single_page_with_records (cr : ConversionResult) (mt : list Entry)
    (page0 : Page) (rest : list Page) :
  pages cr = page0 :: rest ->
  single_page_branch cr mt =
  yield_process_page cr
    {| content_text := ""; page_no := 1; start_ix := 0;
       end_ix := len mt - 1; doc_items := enumerate mt |}.
Proof. intros Hpages. unfold single_page_branch. now rewrite Hpages. Qed.

(** Elements without provenance give no segment, and building the
    segments of a page over them returns. *)
Lemma segments_without_provenance (page : Page) (mt : list Entry)
    (i : Z) (segments : list Segment) :
  Forall (fun e => exists it, e = EItem it /\ prov it = None) mt ->
  py_for (enumerate_from i mt) segments (segment_step page) = Ret segments.
Proof.
  intros Hall. revert i. induction Hall as [|e mt (it & -> & Hprov) _ IH];
    intros i; cbn [enumerate_from py_for]; [reflexivity|].
  unfold segment_step at 1. cbn [getattr_obj_type getattr_prov].
  destruct (label_to_doclaynet !! obj_type it); cbn [py_bind].
  - rewrite Hprov. apply IH.
  - apply IH.
Qed.

(** C5: for a document some element of which carries provenance, with
    stored original text, the generator yields [_process_page()] at the
    page runs of the document, in order; the Markdown field of the tuple
    yielded for a run is the original text when the run starts at index
    0 and ends at the last index of [main_text], and for every other run
    the recomposed export restricted to the index range of the run. *)
Theorem markdown_is_original_for_whole_run_only
    (cr : ConversionResult) (mt : list Entry) (original : string) :
  main_text (legacy_document cr) = Some mt ->
  has_items_with_pages (legacy_document cr) mt = true ->
  get_original_markdown cr = Some original ->
  let doc := legacy_document cr in
  let g := generate_multimodal_pages cr in
  let runs := page_runs doc mt in
  (length (yielded g) <= length runs)%nat /\
  (Forall (fun st => exists tup, _process_page cr st = Ret tup) runs ->
   length (yielded g) = length runs /\ ended g = Ret tt) /\
  Forall2
    (fun st tup =>
       _process_page cr st = Ret tup /\
       (start_ix st = 0 /\ end_ix st = len mt - 1 ->
        t_content_md tup = original) /\
       (~ (start_ix st = 0 /\ end_ix st = len mt - 1) ->
        t_content_md tup = export_to_markdown doc (start_ix st) (end_ix st)) /\
       (export_to_markdown doc (start_ix st) (end_ix st) <> original ->
        (t_content_md tup = original <->
         start_ix st = 0 /\ end_ix st = len mt - 1)))
    (take (length (yielded g)) runs) (yielded g).
Proof.
  intros Hmt Hhas Horig doc g runs. subst doc g runs.
  rewrite (generate_paginated cr mt Hmt Hhas).
  destruct (emit_runs_yielded cr (page_runs (legacy_document cr) mt))
    as (Hrun & Hle & Hlen & Hend).
  split; [exact Hle|]. split; [auto|].
  eapply Forall2_impl; [exact Hrun|].
  intros st tup Hpage. cbn beta in Hpage.
  destruct (process_page_fields cr st tup Hpage) as (_ & Hmd & _).
  rewrite Horig in Hmd.
  pose proof (spans_whole_document_iff (legacy_document cr) mt st Hmt) as Hwhole.
  destruct (spans_whole_document (legacy_document cr) st).
  - assert (start_ix st = 0 /\ end_ix st = len mt - 1) as Hw by now apply Hwhole.
    split; [exact Hpage|]. split; [auto|]. split; [tauto|].
    intros _. split; auto.
  - assert (~ (start_ix st = 0 /\ end_ix st = len mt - 1)) as Hw.
    { intros Hw. apply Hwhole in Hw. discriminate. }
    split; [exact Hpage|]. split; [tauto|]. split; [auto|].
    intros Hne. split; [congruence | tauto].
Qed.

(** X17: for a document none of whose elements carries provenance, with
    stored original text, the generator yields at most one tuple and the
    Markdown field of a yielded tuple is the original text; it yields
    exactly one, over the synthesized page, when there is no page
    record, and exactly one, over the first page record, when there is
    one and the segments of that page can be built. *)
Theorem non_paginated_markdown_is_original
    (cr : ConversionResult) (mt : list Entry) (original : string) :
  main_text (legacy_document cr) = Some mt ->
  has_items_with_pages (legacy_document cr) mt = false ->
  get_original_markdown cr = Some original ->
  let g := generate_multimodal_pages cr in
  (length (yielded g) <= 1)%nat /\
  (forall tup, In tup (yielded g) -> t_content_md tup = original) /\
  (pages cr = [] ->
   exists tup, g = MkGen [tup] (Ret tt) /\ t_page tup = dummy_page /\
               t_content_md tup = original) /\
  (forall page0 rest segments,
     pages cr = page0 :: rest ->
     _process_page_segments (enumerate mt) page0 = Ret segments ->
     exists tup, g = MkGen [tup] (Ret tt) /\ t_page tup = page0 /\
                 t_content_md tup = original).
Proof.
  intros Hmt Hhas Horig g. subst g.
  rewrite (generate_single_page cr mt Hmt Hhas).
  destruct (pages cr) as [|page0 rest] eqn:Hpages.
  - unfold single_page_branch. rewrite Hpages, Horig. cbn.
    repeat split; try lia.
    + intros tup [<- | []]. reflexivity.
    + intros _. eexists. repeat split.
    + intros ? ? ? [=].
  - rewrite (single_page_with_records cr mt page0 rest Hpages).
    rewrite yield_process_page_cases.
    set (st := {| content_text := ""; page_no := 1; start_ix := 0;
                  end_ix := len mt - 1; doc_items := enumerate mt |}).
    assert (forall tup, _process_page cr st = Ret tup ->
                        t_content_md tup = original) as Hmd.
    { intros tup Hpage.
      destruct (process_page_fields cr st tup Hpage) as (_ & Hmd & _).
      rewrite Horig in Hmd.
      assert (spans_whole_document (legacy_document cr) st = true) as Hw
        by (apply (spans_whole_document_iff _ mt st Hmt); now split).
      now rewrite Hw in Hmd. }
    repeat split.
    + destruct (_process_page cr st); cbn; lia.
    + destruct (_process_page cr st) as [tup0|e] eqn:Hpage; cbn; [|tauto].
      intros tup [<- | []]. now apply Hmd.
    + intros [=].
    + intros p r segments [= <- <-] Hseg.
      destruct (process_page_returns cr st page0 segments) as (tup & Hpage & Htp).
      * cbn. rewrite Hpages. apply py_index_head.
      * exact Hseg.
      * exists tup. rewrite Hpage. auto.
Qed.

(** C9: when the legacy document has no [main_text], the generator
    yields nothing and ends normally. *)
Theorem no_main_text_yields_nothing (cr : ConversionResult) :
  main_text (legacy_document cr) = None ->
  generate_multimodal_pages cr = MkGen [] (Ret tt).
Proof.
  intros Hmt. unfold generate_multimodal_pages. now rewrite Hmt.
Qed.

(** X18: for a document none of whose elements carries provenance, with
    at least one page record, the generator yields at most one tuple and
    the plain-text field of a yielded tuple is the empty string; it
    yields exactly one when the segments of the first page can be
    built. *)
Theorem first_page_plain_text_is_empty
    (cr : ConversionResult) (mt : list Entry) (page0 : Page) (rest : list Page) :
  main_text (legacy_document cr) = Some mt ->
  has_items_with_pages (legacy_document cr) mt = false ->
  pages cr = page0 :: rest ->
  let g := generate_multimodal_pages cr in
  (length (yielded g) <= 1)%nat /\
  (forall tup, In tup (yielded g) -> t_content_text tup = "") /\
  (forall segments,
     _process_page_segments (enumerate mt) page0 = Ret segments ->
     exists tup, g = MkGen [tup] (Ret tt) /\ t_page tup = page0 /\
                 t_content_text tup = "").
Proof.
  intros Hmt Hhas Hpages g. subst g.
  rewrite (generate_single_page cr mt Hmt Hhas).
  rewrite (single_page_with_records cr mt page0 rest Hpages).
  rewrite yield_process_page_cases.
  set (st := {| content_text := ""; page_no := 1; start_ix := 0;
                end_ix := len mt - 1; doc_items := enumerate mt |}).
  assert (forall tup, _process_page cr st = Ret tup ->
                      t_content_text tup = "") as Htext.
  { intros tup Hpage.
    now destruct (process_page_fields cr st tup Hpage) as (-> & _). }
  repeat split.
  - destruct (_process_page cr st); cbn; lia.
  - destruct (_process_page cr st) as [tup0|e] eqn:Hpage; cbn; [|tauto].
    intros tup [<- | []]. now apply Htext.
  - intros segments Hseg.
    destruct (process_page_returns cr st page0 segments) as (tup & Hpage & Htp).
    + cbn. rewrite Hpages. apply py_index_head.
    + exact Hseg.
    + exists tup. rewrite Hpage. auto.
Qed.

(** When a page is synthesized instead, the plain-text field gathers the
    text of the elements. *)
Lemma synthesized_page_plain_text (cr : ConversionResult) (mt : list Entry) :
  main_text (legacy_document cr) = Some mt ->
  has_items_with_pages (legacy_document cr) mt = false ->
  pages cr = [] ->
  exists tup,
    generate_multimodal_pages cr = MkGen [tup] (Ret tt) /\
    t_content_text tup = synthesized_content_text (legacy_document cr) mt.
Proof.
  intros Hmt Hhas Hpages. rewrite (generate_single_page cr mt Hmt Hhas).
  unfold single_page_branch. rewrite Hpages. eexists. split; reflexivity.
Qed.

End PageExportProperties.

(** ** The adapters on sample documents *)

Section ChunkingExamples.
Import Chunking Samples.

Example init_md_doc : @__init__ joining_serializer md_doc ∅ = Ret md_serializer.
Proof. reflexivity. Qed.

Example init_plain_doc :
  @__init__ joining_serializer plain_doc ∅ =
  Ret {| ser_doc := plain_doc; ser_kwargs := ∅; _original_content := None |}.
Proof. reflexivity. Qed.

(** The base constructor refuses a keyword it does not declare, and so
    does the adapter's. *)
Example init_unknown_kwargs :
  @__init__ joining_serializer md_doc unknown_kwargs = Raise ValidationError.
Proof. vm_compute. reflexivity. Qed.

Example chunk_md_doc :
  chunk md_doc =
  MkGen [ {| chunk_text := "**天数**：7天";
             chunk_meta := {| doc_items := [title_item];
                              meta_origin := Some md_origin |} |} ]
        (Ret tt).
Proof. reflexivity. Qed.

Example chunk_plain_doc : chunk plain_doc = MkGen [] (Raise ValidationError).
Proof. reflexivity. Qed.

(** The element-level entry point on the serializer that holds the
    stored text: the base rendering of the element comes back. *)
Example serialize_md_title :
  @serialize joining_serializer md_serializer (Some (NDocItem title_item))
    0 false None ∅
  = Ret (mk_SerializationResult "#/texts/0").
Proof. reflexivity. Qed.

(** C1 fails as stated: the serializer built over [md_doc] holds the
    stored original text, yet for the one part of that document
    [serialize_doc] returns what the base serializer recomposes, whose
    text is not the stored one. *)
Lemma serialize_doc_single_part_is_recomposed :
  call_get_original_markdown md_doc = Ret (Some "**天数**：7天") /\
  @__init__ joining_serializer md_doc ∅ = Ret md_serializer /\
  @serialize_doc joining_serializer md_serializer [text_part] ∅
  = Ret (mk_SerializationResult "**天数**: 7天") /\
  py_map sr_text (@serialize_doc joining_serializer md_serializer [text_part] ∅)
  <> Ret "**天数**：7天".
Proof.
  split; [reflexivity|]. split; [reflexivity|]. split; [reflexivity|].
  vm_compute. discriminate.
Qed.

Lemma serialize_doc_original_for_several_parts_witness :
  call_get_original_markdown md_doc2 = Ret (Some "# Title  **天数**：7天") /\
  @__init__ joining_serializer md_doc2 ∅ = Ret md_serializer2 /\
  @serialize_doc joining_serializer md_serializer2 [title_part; text_part] ∅
  = Ret (mk_SerializationResult "# Title  **天数**：7天") /\
  @serialize_doc joining_serializer md_serializer2 [text_part] ∅
  = @super_serialize_doc joining_serializer md_doc2 ∅ [text_part] ∅.
Proof.
  assert (@__init__ joining_serializer md_doc2 ∅ = Ret md_serializer2)
    as Hinit by reflexivity.
  split; [reflexivity|]. split; [exact Hinit|].
  destruct (@serialize_doc_original_for_several_parts joining_serializer
              md_doc2 ∅ "# Title  **天数**：7天" md_serializer2
              eq_refl Hinit)
    as (_ & Hmany & Hfew).
  split.
  - apply Hmany. reflexivity.
  - apply Hfew. discriminate.
Defined.

Lemma serialize_doc_decision_witness :
  @serialize_doc joining_serializer md_serializer2 [title_part; text_part] ∅
  = Ret (mk_SerializationResult "# Title  **天数**：7天") /\
  @serialize_doc joining_serializer md_serializer2 [title_part] ∅
  = @super_serialize_doc joining_serializer md_doc2 ∅ [title_part] ∅.
Proof.
  split.
  - apply (proj1 (@serialize_doc_decision joining_serializer md_serializer2
                    [title_part; text_part] ∅)); reflexivity.
  - apply (proj2 (@serialize_doc_decision joining_serializer md_serializer2
                    [title_part] ∅)).
    right. discriminate.
Defined.

Lemma chunk_with_stored_text_and_no_element_raises_witness :
  call_get_original_markdown empty_md_doc = Ret (Some " ") /\
  iterate_items empty_md_doc = [] /\
  chunk empty_md_doc = MkGen [] (Raise ValidationError).
Proof.
  split; [reflexivity|]. split; [reflexivity|].
  apply (chunk_with_stored_text_and_no_element_raises empty_md_doc " ");
    reflexivity.
Defined.

Lemma chunk_without_elements_raises_witness :
  iterate_items plain_doc = [] /\
  chunk plain_doc = MkGen [] (Raise ValidationError).
Proof.
  split; [reflexivity|].
  apply (chunk_without_elements_raises plain_doc). reflexivity.
Defined.





End ChunkingExamples.

(** ** The page export on sample conversion results *)

Section PageExportExamples.
Import PageExport PageSamples.

Example py_index_last : py_index [10; 20; 30] (-1) = Ret 30.
Proof. reflexivity. Qed.

Example py_index_out_of_range : py_index [10; 20; 30] 3 = Raise IndexError.
Proof. reflexivity. Qed.

(** Three paragraphs on pages 1, 1 and 2: the runs are [0 .. 1] and
    [2 .. 2], and neither is the whole document. *)
Example two_page_runs :
  map (fun st => (page_no st, start_ix st, end_ix st))
      (page_runs (legacy_document two_page_result) three_paras)
  = [(1, 0, 1); (2, 2, 2)].
Proof. reflexivity. Qed.

Example two_page_markdown :
  let g := @generate_multimodal_pages scaling_geometry two_page_result in
  map t_content_md (yielded g) = ["one|two"; "three"] /\
  map t_content_text (yielded g) = ["one two "; "three "] /\
  ended g = Ret tt.
Proof. vm_compute. repeat split. Qed.

(** Two paragraphs on one page: the only run is the whole document. *)
Example one_page_markdown :
  let g := @generate_multimodal_pages scaling_geometry one_page_result in
  map t_content_md (yielded g) = ["one  two"] /\ ended g = Ret tt.
Proof. vm_compute. repeat split. Qed.

Example markdown_result_page :
  let g := @generate_multimodal_pages scaling_geometry markdown_result in
  map t_content_md (yielded g) = ["**天数**：7天"] /\
  map t_content_text (yielded g) = ["**天数** 7天 "] /\
  map t_page (yielded g) = [dummy_page] /\
  ended g = Ret tt.
Proof. vm_compute. repeat split. Qed.

Example markdown_result_with_page_page :
  let g := @generate_multimodal_pages scaling_geometry markdown_result_with_page in
  map t_content_md (yielded g) = ["**天数**：7天"] /\
  map t_content_text (yielded g) = [""] /\
  map t_page (yielded g) = [page_record 1] /\
  ended g = Ret tt.
Proof. vm_compute. repeat split. Qed.

(** With a page record, an unresolved reference whose type has a label
    stops the generator before it yields: [_process_page_segments] reads
    [prov] on the reference itself. *)
Example table_ref_result_raises :
  @generate_multimodal_pages scaling_geometry table_ref_result
  = MkGen [] (Raise AttributeError).
Proof. vm_compute. reflexivity. Qed.

Lemma markdown_is_original_for_whole_run_only_witness :
  let cr := two_page_result in
  let doc := legacy_document cr in
  let g := @generate_multimodal_pages scaling_geometry cr in
  has_items_with_pages doc three_paras = true /\
  length (yielded g) = length (page_runs doc three_paras) /\
  ended g = Ret tt /\
  Forall2
    (fun st tup =>
       ~ (start_ix st = 0 /\ end_ix st = len three_paras - 1) ->
       t_content_md tup = export_to_markdown doc (start_ix st) (end_ix st))
    (take (length (yielded g)) (page_runs doc three_paras)) (yielded g).
Proof.
  intros cr doc g.
  destruct (@markdown_is_original_for_whole_run_only scaling_geometry
              cr three_paras "one  two  three" eq_refl eq_refl eq_refl)
    as (_ & Hall & Hruns).
  split; [reflexivity|].
  assert (Forall (fun st => exists tup,
                    @_process_page scaling_geometry cr st = Ret tup)
                 (page_runs doc three_paras)) as Hret.
  { repeat constructor; eexists; vm_compute; reflexivity. }
  destruct (Hall Hret) as (Hlen & Hend).
  split; [exact Hlen|]. split; [exact Hend|].
  eapply Forall2_impl; [exact Hruns|].
  intros st tup (_ & _ & Hpartial & _). exact Hpartial.
Defined.

Lemma non_paginated_markdown_is_original_witness :
  (exists tup,
     @generate_multimodal_pages scaling_geometry markdown_result
     = MkGen [tup] (Ret tt) /\
     t_page tup = dummy_page /\ t_content_md tup = "**天数**：7天") /\
  (exists tup,
     @generate_multimodal_pages scaling_geometry markdown_result_with_page
     = MkGen [tup] (Ret tt) /\
     t_page tup = page_record 1 /\ t_content_md tup = "**天数**：7天").
Proof.
  split.
  - destruct (@non_paginated_markdown_is_original scaling_geometry
                markdown_result md_paras "**天数**：7天" eq_refl eq_refl eq_refl)
      as (_ & _ & Hsynth & _).
    apply Hsynth. reflexivity.
  - destruct (@non_paginated_markdown_is_original scaling_geometry
                markdown_result_with_page md_paras "**天数**：7天"
                eq_refl eq_refl eq_refl)
      as (_ & _ & _ & Hfirst).
    apply (Hfirst (page_record 1) [] []); reflexivity.
Defined.

Lemma no_main_text_yields_nothing_witness :
  main_text (legacy_document empty_result) = None /\
  @generate_multimodal_pages scaling_geometry empty_result = MkGen [] (Ret tt).
Proof.
  split; [reflexivity|].
  apply (@no_main_text_yields_nothing scaling_geometry empty_result).
  reflexivity.
Defined.

Lemma first_page_plain_text_is_empty_witness :
  exists tup,
    @generate_multimodal_pages scaling_geometry markdown_result_with_page
    = MkGen [tup] (Ret tt) /\
    t_page tup = page_record 1 /\ t_content_text tup = "".
Proof.
  destruct (@first_page_plain_text_is_empty scaling_geometry
              markdown_result_with_page md_paras (page_record 1) []
              eq_refl eq_refl eq_refl)
    as (_ & _ & Hfirst).
  apply (Hfirst []). reflexivity.
Defined.

End PageExportExamples.

(** ** The page runs of a document *)

Section PageRunProperties.
Import PageExport.

Lemma string_app_cons (c : Ascii.ascii) (s t : string) :
  (String c s ++ t)%string = String c (s ++ t)%string.
Proof. reflexivity. Qed.

Lemma string_app_nil_r (s : string) : (s ++ "")%string = s.
Proof.
  induction s as [|c s IH]; [reflexivity|]. now rewrite string_app_cons, IH.
Qed.

Lemma string_app_assoc (s t u : string) :
  ((s ++ t) ++ u)%string = (s ++ t ++ u)%string.
Proof.
  induction s as [|c s IH]; [reflexivity|]. now rewrite !string_app_cons, IH.
Qed.

Lemma page_text_app (items items' : list (Z * Entry)) :
  page_text (items ++ items') = (page_text items ++ page_text items')%string.
Proof.
  induction items as [|[ix e] items IH]; cbn [app page_text]; [reflexivity|].
  now rewrite IH, string_app_assoc.
Qed.

Lemma locals_inv_initial : locals_inv 0 initial_locals.
Proof.
  unfold locals_inv, initial_locals. cbn.
  repeat split; try lia; try congruence. constructor.
Qed.

Lemma locals_inv_mono (i j : Z) (st : Locals) :
  i <= j -> locals_inv i st -> locals_inv j st.
Proof.
  intros Hij (H0 & H1 & H2 & H3 & H4 & H5 & H6).
  repeat split; try assumption; try lia.
  intros Hne. specialize (H3 Hne). lia.
Qed.

(** One iteration of the main loop at the element of index [i]. *)
Lemma advance_inv (doc : LegacyDocument) (i : Z) (e : Entry) (st : Locals) :
  0 <= i ->
  locals_inv i st ->
  let closed := fst (advance doc st (i, e)) in
  let st1 := snd (advance doc st (i, e)) in
  locals_inv (i + 1) st1 /\
  start_ix st <= start_ix st1 /\
  (length closed <= 1)%nat /\
  Forall (fun r => r = st /\ doc_items r <> [] /\ end_ix r < start_ix st1)
         closed /\
  concat (map doc_items closed) ++ doc_items st1
  = doc_items st ++ located_items doc [(i, e)].
Proof.
  intros Hi Hinv.
  assert (locals_inv (i + 1) st) as Hskip by (apply (locals_inv_mono i); [lia|exact Hinv]).
  destruct Hinv as (H0 & H1 & H2 & H3 & H4 & H5 & H6).
  change (located_items doc [(i, e)])
    with (match located doc (i, e) with Some x => [x] | None => [] end).
  unfold advance, located. cbn [fst snd].
  destruct (resolve doc e) as [[ot [[|p ps]|] tx th]|]; cbn [fst snd].
  1, 3, 4: (split; [exact Hskip|]; split; [lia|]; split; [cbn; lia|];
            split; [now constructor|];
            cbn [map concat app]; now rewrite app_nil_r).
  set (item := {| obj_type := ot; prov := Some (p :: ps); text := tx;
                  table_html := th |}).
  assert (located_entry (i, EItem item)) as Hloc by (now exists item, p, ps).
  destruct ((0 <? page_no st) && (page_no st <? page p)) eqn:Hflush;
    cbn [fst snd content_text page_no start_ix end_ix doc_items].
  - apply andb_true_iff in Hflush as [Hpos _]. apply Z.ltb_lt in Hpos.
    assert (doc_items st <> []) as Hne
      by (intros Hnil; specialize (H4 Hnil); lia).
    specialize (H3 Hne).
    split; [|split; [lia|split; [cbn; lia|split]]].
    + unfold locals_inv.
      cbn [content_text page_no start_ix end_ix doc_items app].
      split; [lia|]. split; [lia|]. split; [lia|]. split; [intros _; lia|].
      split; [discriminate|]. split.
      * constructor; [|constructor]. split; [exact Hloc|]. cbn. lia.
      * cbn [page_text entry_piece text]. rewrite string_app_nil_r.
        unfold text_piece. subst item. cbn [text].
        destruct tx as [t|]; [destruct (String.eqb t "")|]; reflexivity.
    + constructor; [|constructor]. split; [reflexivity|]. split; [exact Hne|].
      cbn. lia.
    + cbn. now rewrite app_nil_r.
  - split; [|split; [lia|split; [cbn; lia|split; [constructor|reflexivity]]]].
    unfold locals_inv.
    cbn [content_text page_no start_ix end_ix doc_items].
    split; [lia|]. split; [lia|]. split; [lia|]. split; [intros _; lia|].
    split; [intros Hnil; now destruct (doc_items st)|]. split.
    + apply Forall_app. split.
      * destruct (doc_items st) as [|x0 items0] eqn:Hitems; [constructor|].
        assert (end_ix st < i) as Hend by (apply H3; discriminate).
        eapply Forall_impl; [exact H5|]. cbn. intros x (Hx & Hr).
        split; [exact Hx|lia].
      * constructor; [|constructor]. split; [exact Hloc|]. cbn. lia.
    + rewrite page_text_app, H6.
      cbn [page_text entry_piece text]. rewrite string_app_nil_r.
      unfold text_piece. subst item. cbn [text].
      destruct tx as [t|]; [destruct (String.eqb t "")|];
        now rewrite ?string_app_nil_r.
Qed.

Lemma located_items_cons (doc : LegacyDocument) (x : Z * Entry)
    (entries : list (Z * Entry)) :
  located_items doc (x :: entries)
  = located_items doc [x] ++ located_items doc entries.
Proof.
  unfold located_items. cbn [omap list_omap]. now destruct (located doc x).
Qed.

Lemma len_cons {A : Type} (x : A) (l : list A) : len (x :: l) = len l + 1.
Proof. unfold len. cbn [length]. lia. Qed.

Lemma len_nonneg {A : Type} (l : list A) : 0 <= len l.
Proof. unfold len. lia. Qed.

(** The main loop over the elements from index [i] on. *)
Lemma closed_runs_inv (doc : LegacyDocument) (l : list Entry) :
  forall (i : Z) (st : Locals),
    0 <= i ->
    locals_inv i st ->
    let closed := fst (closed_runs doc st (enumerate_from i l)) in
    let st' := snd (closed_runs doc st (enumerate_from i l)) in
    locals_inv (i + len l) st' /\
    start_ix st <= start_ix st' /\
    Forall (fun r => locals_inv (i + len l) r /\ doc_items r <> [] /\
                     start_ix st <= start_ix r /\ end_ix r < start_ix st')
           closed /\
    StronglySorted run_before closed /\
    concat (map doc_items closed) ++ doc_items st'
    = doc_items st ++ located_items doc (enumerate_from i l).
Proof.
  induction l as [|e l IH]; intros i st Hi Hinv.
  - cbn [enumerate_from closed_runs fst snd]. unfold len. cbn [length].
    rewrite Z.add_0_r. split; [exact Hinv|]. split; [lia|].
    split; [constructor|]. split; [constructor|].
    cbn. now rewrite app_nil_r.
  - cbn [enumerate_from closed_runs].
    pose proof (advance_inv doc i e st Hi Hinv) as Hstep.
    destruct (advance doc st (i, e)) as [c st1]. cbn [fst snd] in Hstep.
    destruct Hstep as (Hinv1 & Hstart1 & Hlen1 & Hc & Hpart1).
    assert (0 <= i + 1) as Hi1 by lia.
    specialize (IH (i + 1) st1 Hi1 Hinv1).
    destruct (closed_runs doc st1 (enumerate_from (i + 1) l)) as [c' st2].
    cbn [fst snd] in IH |- *.
    destruct IH as (Hinv2 & Hstart2 & Hc' & Hsorted & Hpart2).
    rewrite len_cons.
    replace (i + (len l + 1)) with (i + 1 + len l) by lia.
    pose proof (len_nonneg l) as Hl.
    split; [exact Hinv2|]. split; [lia|]. split; [|split].
    + apply Forall_app. split.
      * eapply Forall_impl; [exact Hc|]. cbn. intros r (-> & Hne & Hend).
        split; [apply (locals_inv_mono i); [lia|exact Hinv]|].
        split; [exact Hne|]. lia.
      * eapply Forall_impl; [exact Hc'|]. cbn.
        intros r (Hr & Hne & Hs & Hend).
        split; [exact Hr|]. split; [exact Hne|]. lia.
    + apply StronglySorted_app_2.
      * intros x1 x2 Hx1 Hx2. unfold run_before.
        rewrite Forall_forall in Hc, Hc'.
        destruct (Hc x1 Hx1) as (_ & _ & Hend).
        destruct (Hc' x2 Hx2) as (_ & _ & Hs & _). lia.
      * destruct c as [|a [|b c]]; [constructor|repeat constructor|cbn in Hlen1; lia].
      * exact Hsorted.
    + rewrite map_app, concat_app, <- app_assoc, Hpart2, app_assoc, Hpart1.
      now rewrite <- app_assoc, <- located_items_cons.
Qed.

(** The runs of a document: each holds at least one element and lies
    within the indices of [main_text]; they come in increasing order
    without overlap; together their elements are the located elements of
    the document, in document order. *)
Lemma page_runs_inv (doc : LegacyDocument) (mt : list Entry) :
  Forall (fun r => locals_inv (len mt) r /\ doc_items r <> [])
         (page_runs doc mt) /\
  StronglySorted run_before (page_runs doc mt) /\
  concat (map doc_items (page_runs doc mt))
  = located_items doc (enumerate mt).
Proof.
  unfold page_runs, enumerate.
  pose proof (closed_runs_inv doc mt 0 initial_locals (Z.le_refl 0)
                locals_inv_initial) as Hruns.
  destruct (closed_runs doc initial_locals (enumerate_from 0 mt)) as [closed st].
  cbn [fst snd] in Hruns. rewrite Z.add_0_l in Hruns.
  destruct Hruns as (Hinv & _ & Hclosed & Hsorted & Hpart).
  cbn [doc_items initial_locals app] in Hpart.
  destruct (0 <? len (doc_items st)) eqn:Hsome.
  - assert (doc_items st <> []) as Hne.
    { intros Hnil. rewrite Hnil in Hsome. discriminate. }
    split; [|split].
    + apply Forall_app. split.
      * eapply Forall_impl; [exact Hclosed|]. cbn. tauto.
      * constructor; [split; assumption|constructor].
    + apply StronglySorted_app_2; [|exact Hsorted|repeat constructor].
      intros x1 x2 Hx1 Hx2. apply list_elem_of_singleton in Hx2 as ->.
      rewrite Forall_forall in Hclosed.
      now destruct (Hclosed x1 Hx1) as (_ & _ & _ & Hend).
    + rewrite map_app, concat_app. cbn. now rewrite app_nil_r.
  - assert (doc_items st = []) as Hnil.
    { destruct (doc_items st); [reflexivity|]. unfold len in Hsome.
      cbn [length] in Hsome. apply Z.ltb_ge in Hsome. lia. }
    rewrite Hnil, app_nil_r in Hpart. rewrite app_nil_r.
    split; [|split; [exact Hsorted|exact Hpart]].
    eapply Forall_impl; [exact Hclosed|]. cbn. tauto.
Qed.

End PageRunProperties.

(** ** More on the page export *)

Section PageExportMore.
Import PageExport.
Context `{Geo : Geometry}.

Lemma enumerate_from_length {A : Type} (l : list A) (i : Z) :
  length (enumerate_from i l) = length l.
Proof.
  revert i. induction l as [|x l IH]; intros i; cbn; [reflexivity|].
  now rewrite IH.
Qed.

Lemma located_items_length (doc : LegacyDocument) (entries : list (Z * Entry)) :
  (length (located_items doc entries) <= length entries)%nat.
Proof.
  induction entries as [|x entries IH]; [cbn; lia|].
  rewrite located_items_cons, length_app. cbn [length].
  unfold located_items at 1. cbn [omap list_omap].
  destruct (located doc x); cbn [length]; lia.
Qed.

Lemma concat_nonempty_length {A : Type} (ls : list (list A)) :
  Forall (fun l => l <> []) ls -> (length ls <= length (concat ls))%nat.
Proof.
  induction 1 as [|l ls Hl _ IH]; cbn; [lia|].
  rewrite length_app. destruct l; [contradiction|cbn; lia].
Qed.

(** X1: in the paginated branch the generator works through the page
    runs of the document; each run holds at least one element, starts at
    or after index 0 and ends before [len(main_text)], and each run ends
    before the next one starts; there are at most as many runs, hence
    yielded tuples, as elements. *)
Theorem page_runs_are_disjoint_ranges
    (cr : ConversionResult) (mt : list Entry) :
  main_text (legacy_document cr) = Some mt ->
  has_items_with_pages (legacy_document cr) mt = true ->
  let runs := page_runs (legacy_document cr) mt in
  generate_multimodal_pages cr = emit_runs cr runs /\
  Forall (fun r => doc_items r <> [] /\
                   0 <= start_ix r /\ start_ix r <= end_ix r /\
                   end_ix r < len mt) runs /\
  StronglySorted run_before runs /\
  (length (yielded (generate_multimodal_pages cr)) <= length runs
   <= length mt)%nat.
Proof.
  intros Hmt Hhas runs. subst runs.
  destruct (page_runs_inv (legacy_document cr) mt) as (Hall & Hsorted & Hpart).
  split; [now apply generate_paginated|].
  split; [|split; [exact Hsorted|]].
  - eapply Forall_impl; [exact Hall|]. cbn.
    intros r ((H0 & H1 & _ & H3 & _) & Hne). specialize (H3 Hne). tauto.
  - rewrite (generate_paginated cr mt Hmt Hhas). split.
    + apply emit_runs_yielded.
    + rewrite <- (List.length_map doc_items (page_runs (legacy_document cr) mt)).
      etransitivity; [apply concat_nonempty_length|].
      * apply Forall_map. eapply Forall_impl; [exact Hall|]. cbn. tauto.
      * rewrite Hpart. etransitivity; [apply located_items_length|].
        unfold enumerate. now rewrite enumerate_from_length.
Qed.

(** X2: in the paginated branch the elements of the runs, put end to
    end, are exactly the elements of [main_text] that resolve to an
    element with a non-empty [prov], each with its index and in document
    order: none is lost, none is counted twice; the indices of the
    elements of a run lie between its [start_ix] and [end_ix]. *)
Theorem page_runs_partition_located_items
    (cr : ConversionResult) (mt : list Entry) :
  main_text (legacy_document cr) = Some mt ->
  has_items_with_pages (legacy_document cr) mt = true ->
  let doc := legacy_document cr in
  let runs := page_runs doc mt in
  generate_multimodal_pages cr = emit_runs cr runs /\
  concat (map doc_items runs) = located_items doc (enumerate mt) /\
  Forall (fun r =>
            Forall (fun x => located_entry x /\
                             start_ix r <= fst x <= end_ix r)
                   (doc_items r))
         runs.
Proof.
  intros Hmt Hhas doc runs. subst doc runs.
  destruct (page_runs_inv (legacy_document cr) mt) as (Hall & _ & Hpart).
  split; [now apply generate_paginated|]. split; [exact Hpart|].
  eapply Forall_impl; [exact Hall|]. cbn.
  intros r ((_ & _ & _ & _ & _ & Hitems & _) & _). exact Hitems.
Qed.

(** X3: in the paginated branch the plain-text field of a yielded tuple
    is made of the texts of the elements of its run, in order, each
    followed by one space, elements whose text is [None] or empty
    adding nothing. *)
Theorem page_plain_text_is_text_of_run
    (cr : ConversionResult) (mt : list Entry) :
  main_text (legacy_document cr) = Some mt ->
  has_items_with_pages (legacy_document cr) mt = true ->
  let g := generate_multimodal_pages cr in
  let runs := page_runs (legacy_document cr) mt in
  Forall2 (fun st tup => t_content_text tup = page_text (doc_items st))
          (take (length (yielded g)) runs) (yielded g).
Proof.
  intros Hmt Hhas g runs. subst g runs.
  rewrite (generate_paginated cr mt Hmt Hhas).
  destruct (emit_runs_yielded cr (page_runs (legacy_document cr) mt))
    as (Hrun & _).
  destruct (page_runs_inv (legacy_document cr) mt) as (Hall & _).
  apply Forall2_same_length_lookup. split.
  - eapply Forall2_length, Hrun.
  - intros k st tup Hst Htup.
    rewrite Forall2_lookup in Hrun. specialize (Hrun k).
    rewrite Hst, Htup in Hrun. inversion Hrun as [? ? Hpage|]; subst.
    destruct (process_page_fields cr st tup Hpage) as (-> & _).
    apply lookup_take_Some in Hst as [Hst _].
    rewrite Forall_lookup in Hall.
    destruct (Hall k st Hst) as ((_ & _ & _ & _ & _ & _ & Htext) & _).
    exact Htext.
Qed.



(** Over located elements the segments of a page can always be built. *)
Lemma segments_of_located_items (page : Page) (items : list (Z * Entry)) :
  Forall located_entry items ->
  forall segments, exists segments',
    py_for items segments (segment_step page) = Ret segments'.
Proof.
  induction 1 as [|[ix e] items (it & p & ps & He & Hprov) _ IH];
    intros segments; cbn [py_for]; [eauto|].
  cbn [snd] in He. subst e. unfold segment_step at 1.
  cbn [getattr_obj_type getattr_prov getattr_text py_bind].
  destruct (label_to_doclaynet !! obj_type it) as [lbl|]; [|apply IH].
  cbn [py_bind]. rewrite Hprov.
  destruct (size page) as [page_size|]; [|apply IH].
  rewrite py_index_head. cbn [py_bind]. apply IH.
Qed.

(** What [_process_page()] puts in the other fields of the tuple. *)
Lemma process_page_other_fields (cr : ConversionResult) (st : Locals)
    (tup : PageTuple) :
  _process_page cr st = Ret tup ->
  t_content_dt tup
  = export_to_document_tokens (legacy_document cr) (start_ix st) (end_ix st)
      false /\
  t_page_cells tup = _process_page_cells (t_page tup) /\
  _process_page_segments (doc_items st) (t_page tup)
  = Ret (t_page_segments tup).
Proof.
  unfold _process_page.
  destruct (py_index (pages cr) (page_no st - 1)) as [page|e]; [|discriminate].
  cbn [py_bind].
  destruct (_process_page_segments (doc_items st) page) as [segments|e] eqn:Hseg;
    [|discriminate].
  cbn [py_bind]. intros [= <-]. cbn. auto.
Qed.




(** The tuple that the single-page branch builds itself when there is no
    page record. *)
Lemma single_page_without_records (cr : ConversionResult) (mt : list Entry) :
  pages cr = [] ->
  single_page_branch cr mt =
  MkGen
    [ {| t_content_text := synthesized_content_text (legacy_document cr) mt;
         t_content_md :=
           match get_original_markdown cr with
           | Some original_md => original_md
           | None => export_to_markdown (legacy_document cr) 0 (len mt - 1)
           end;
         t_content_dt :=
           export_to_document_tokens (legacy_document cr) 0 (len mt - 1) false;
         t_page_cells := [];
         t_page_segments := [];
         t_page := dummy_page |} ]
    (Ret tt).
Proof. intros Hpages. unfold single_page_branch. now rewrite Hpages. Qed.

Lemma emit_runs_yielded_from (cr : ConversionResult) (runs : list Locals)
    (tup : PageTuple) :
  In tup (yielded (emit_runs cr runs)) ->
  exists st, In st runs /\ _process_page cr st = Ret tup.
Proof.
  induction runs as [|st runs IH]; [intros []|].
  rewrite emit_runs_cons.
  destruct (_process_page cr st) as [tup0|e] eqn:Hpage; cbn [yielded];
    [|intros []].
  intros [<- | Hin].
  - exists st. split; [now left|exact Hpage].
  - destruct (IH Hin) as (st' & Hin' & Hst'). exists st'. split; [now right|exact Hst'].
Qed.

(** Where a yielded tuple comes from: the synthesized page, or a call of
    [_process_page()]. *)
Lemma yielded_tuple_origin (cr : ConversionResult) (tup : PageTuple) :
  In tup (yielded (generate_multimodal_pages cr)) ->
  (pages cr = [] /\ t_page tup = dummy_page /\
   t_page_cells tup = [] /\ t_page_segments tup = []) \/
  (exists st, _process_page cr st = Ret tup).
Proof.
  destruct (main_text (legacy_document cr)) as [mt|] eqn:Hmt.
  - destruct (has_items_with_pages (legacy_document cr) mt) eqn:Hhas.
    + rewrite (generate_paginated cr mt Hmt Hhas). intros Hin.
      destruct (emit_runs_yielded_from cr _ tup Hin) as (st & _ & Hst). eauto.
    + rewrite (generate_single_page cr mt Hmt Hhas).
      destruct (pages cr) as [|page0 rest] eqn:Hpages.
      * rewrite (single_page_without_records cr mt Hpages).
        intros [<- | []]. left. cbn. auto.
      * rewrite (single_page_with_records cr mt page0 rest Hpages).
        rewrite yield_process_page_cases.
        destruct (_process_page cr _) as [tup0|e] eqn:Hpage; [|intros []].
        intros [<- | []]. eauto.
  - unfold generate_multimodal_pages. rewrite Hmt. intros [].
Qed.

(** X5: the cell records of a yielded tuple are those of the page in the
    tuple: none when the page has no size, and otherwise one per cell of
    the page, in order, with the text, the OCR flag and the confidence
    of the cell. *)
Theorem yielded_cells_are_cells_of_page
    (cr : ConversionResult) (tup : PageTuple) :
  In tup (yielded (generate_multimodal_pages cr)) ->
  t_page_cells tup = _process_page_cells (t_page tup) /\
  (size (t_page tup) = None -> t_page_cells tup = []) /\
  (size (t_page tup) <> None ->
   map rec_text (t_page_cells tup) = map cell_text (cells (t_page tup)) /\
   map ocr (t_page_cells tup) = map from_ocr (cells (t_page tup)) /\
   map ocr_confidence (t_page_cells tup)
   = map confidence (cells (t_page tup))).
Proof.
  intros Hin.
  assert (t_page_cells tup = _process_page_cells (t_page tup)) as Hcells.
  { destruct (yielded_tuple_origin cr tup Hin)
      as [(_ & Hpage & Hcells & _) | (st & Hst)].
    - rewrite Hcells, Hpage. reflexivity.
    - now destruct (process_page_other_fields cr st tup Hst) as (_ & Hc & _). }
  split; [exact Hcells|]. rewrite Hcells. unfold _process_page_cells.
  destruct (size (t_page tup)) as [page_size|]; split;
    try reflexivity; try discriminate; try contradiction.
  intros _. rewrite !map_map. cbn. auto.
Qed.

(** X6: the tokenized field never carries the original text: for a
    document without located elements it is the recomposed token export
    of the range [0 .. len(main_text) - 1], and in the paginated branch
    that of the range of the run, page index off in both. *)
Theorem tokens_are_always_recomposed
    (cr : ConversionResult) (mt : list Entry) :
  main_text (legacy_document cr) = Some mt ->
  let doc := legacy_document cr in
  let g := generate_multimodal_pages cr in
  (has_items_with_pages doc mt = false ->
   forall tup, In tup (yielded g) ->
     t_content_dt tup = export_to_document_tokens doc 0 (len mt - 1) false) /\
  (has_items_with_pages doc mt = true ->
   Forall2 (fun st tup =>
              t_content_dt tup
              = export_to_document_tokens doc (start_ix st) (end_ix st) false)
           (take (length (yielded g)) (page_runs doc mt)) (yielded g)).
Proof.
  intros Hmt doc g. subst doc g. split; intros Hhas.
  - rewrite (generate_single_page cr mt Hmt Hhas).
    destruct (pages cr) as [|page0 rest] eqn:Hpages.
    + rewrite (single_page_without_records cr mt Hpages).
      intros tup [<- | []]. reflexivity.
    + rewrite (single_page_with_records cr mt page0 rest Hpages).
      rewrite yield_process_page_cases.
      destruct (_process_page cr _) as [tup0|e] eqn:Hpage; [|intros ? []].
      intros tup [<- | []].
      now destruct (process_page_other_fields cr _ tup0 Hpage) as (-> & _).
  - rewrite (generate_paginated cr mt Hmt Hhas).
    destruct (emit_runs_yielded cr (page_runs (legacy_document cr) mt))
      as (Hrun & _).
    eapply Forall2_impl; [exact Hrun|]. cbn. intros st tup Hpage.
    now destruct (process_page_other_fields cr st tup Hpage) as (-> & _).
Qed.

(** X7: without stored original text the Markdown field is always the
    recomposed export of the range: [0 .. len(main_text) - 1] for a
    document without located elements, the range of the run in the
    paginated branch, the whole-document run included. *)
Theorem markdown_is_export_without_original
    (cr : ConversionResult) (mt : list Entry) :
  main_text (legacy_document cr) = Some mt ->
  get_original_markdown cr = None ->
  let doc := legacy_document cr in
  let g := generate_multimodal_pages cr in
  (has_items_with_pages doc mt = false ->
   forall tup, In tup (yielded g) ->
     t_content_md tup = export_to_markdown doc 0 (len mt - 1)) /\
  (has_items_with_pages doc mt = true ->
   Forall2 (fun st tup =>
              t_content_md tup
              = export_to_markdown doc (start_ix st) (end_ix st))
           (take (length (yielded g)) (page_runs doc mt)) (yielded g)).
Proof.
  intros Hmt Horig doc g. subst doc g. split; intros Hhas.
  - rewrite (generate_single_page cr mt Hmt Hhas).
    destruct (pages cr) as [|page0 rest] eqn:Hpages.
    + rewrite (single_page_without_records cr mt Hpages), Horig.
      intros tup [<- | []]. reflexivity.
    + rewrite (single_page_with_records cr mt page0 rest Hpages).
      rewrite yield_process_page_cases.
      destruct (_process_page cr _) as [tup0|e] eqn:Hpage; [|intros ? []].
      intros tup [<- | []].
      destruct (process_page_fields cr _ tup0 Hpage) as (_ & Hmd & _).
      now rewrite Horig in Hmd.
  - rewrite (generate_paginated cr mt Hmt Hhas).
    destruct (emit_runs_yielded cr (page_runs (legacy_document cr) mt))
      as (Hrun & _).
    eapply Forall2_impl; [exact Hrun|]. cbn. intros st tup Hpage.
    destruct (process_page_fields cr st tup Hpage) as (_ & Hmd & _).
    now rewrite Horig in Hmd.
Qed.

(** One iteration of the loop of [_process_page_segments] that returns
    either skipped the element or appended its segment. *)
Lemma segment_step_returns (page : Page) (segments segments' : list Segment)
    (ix : Z) (e : Entry) :
  segment_step page segments (ix, e) = Ret segments' ->
  segments' = segments \/
  exists it p ps lbl page_size,
    e = EItem it /\
    label_to_doclaynet !! obj_type it = Some lbl /\
    prov it = Some (p :: ps) /\
    size page = Some page_size /\
    segments' = segments ++
      [ {| index_in_doc := ix;
           label := lbl;
           seg_text := match text it with Some t => t | None => "" end;
           seg_bbox := item_bbox_normalized (bbox p) page_size;
           data := match table_html it with
                   | Some h => [ {| html_seq := h; otsl_seq := "" |} ]
                   | None => []
                   end |} ].
Proof.
  unfold segment_step.
  destruct (label_to_doclaynet !! getattr_obj_type e) as [lbl|] eqn:Hlbl;
    [|intros [= <-]; now left].
  destruct e as [r|it]; cbn [getattr_prov getattr_text py_bind]; [discriminate|].
  cbn [getattr_obj_type] in Hlbl.
  destruct (prov it) as [item_prov|] eqn:Hprov; [|intros [= <-]; now left].
  destruct (size page) as [page_size|] eqn:Hsize; [|intros [= <-]; now left].
  destruct item_prov as [|p ps]; [discriminate|].
  rewrite py_index_head. cbn [py_bind]. intros [= <-]. right.
  exists it, p, ps, lbl, page_size. repeat split; try assumption.
  destruct it as [ot pv tx th]. cbn. now destruct th.
Qed.

Lemma segments_loop_returns (page : Page) (items : list (Z * Entry)) :
  forall segments segments',
    py_for items segments (segment_step page) = Ret segments' ->
    exists new,
      segments' = segments ++ new /\
      sublist (map index_in_doc new) (map fst items) /\
      Forall
        (fun s => exists it p ps page_size,
           In (index_in_doc s, EItem it) items /\
           label_to_doclaynet !! obj_type it = Some (label s) /\
           prov it = Some (p :: ps) /\
           size page = Some page_size /\
           seg_text s = match text it with Some t => t | None => "" end /\
           seg_bbox s = item_bbox_normalized (bbox p) page_size /\
           data s = match table_html it with
                    | Some h => [ {| html_seq := h; otsl_seq := "" |} ]
                    | None => []
                    end)
        new.
Proof.
  induction items as [|[ix e] items IH]; intros segments segments';
    cbn [py_for].
  - intros [= <-]. exists []. rewrite app_nil_r. repeat split; constructor.
  - destruct (segment_step page segments (ix, e)) as [segments1|err] eqn:Hstep;
      cbn [py_bind]; [|discriminate].
    intros Hrest. destruct (IH _ _ Hrest) as (new & -> & Hsub & Hall).
    assert (Forall
              (fun s => exists it p ps page_size,
                 In (index_in_doc s, EItem it) ((ix, e) :: items) /\
                 label_to_doclaynet !! obj_type it = Some (label s) /\
                 prov it = Some (p :: ps) /\
                 size page = Some page_size /\
                 seg_text s = match text it with Some t => t | None => "" end /\
                 seg_bbox s = item_bbox_normalized (bbox p) page_size /\
                 data s = match table_html it with
                          | Some h => [ {| html_seq := h; otsl_seq := "" |} ]
                          | None => []
                          end)
              new) as Hall'.
    { eapply Forall_impl; [exact Hall|]. cbn.
      intros s (it & p & ps & sz & Hin & Hrest'). exists it, p, ps, sz.
      split; [now right|exact Hrest']. }
    destruct (segment_step_returns page segments segments1 ix e Hstep)
      as [-> | (it & p & ps & lbl & sz & -> & Hlbl & Hprov & Hsize & ->)].
    + exists new. split; [reflexivity|]. split; [|exact Hall'].
      cbn [map fst]. now apply sublist_cons.
    + eexists (_ :: new). split; [now rewrite <- app_assoc|]. split.
      * cbn [map fst index_in_doc]. now apply sublist_skip.
      * constructor; [|exact Hall'].
        exists it, p, ps, sz. cbn. repeat split; try assumption. now left.
Qed.

(** X8: when [_process_page_segments] returns, its segments follow the
    order of [doc_items], at most one per element; each comes from an
    element that is not a reference, whose type the label table maps to
    the segment's label, that has a first provenance record, on a page
    with a size; the segment carries the element's text ([""] for
    [None]), the reprojected box of that record, and the HTML of the
    element when it is a table, nothing otherwise. *)
Theorem segments_come_from_labelled_located_elements
    (items : list (Z * Entry)) (page : Page) (segments : list Segment) :
  _process_page_segments items page = Ret segments ->
  sublist (map index_in_doc segments) (map fst items) /\
  Forall
    (fun s => exists it p ps page_size,
       In (index_in_doc s, EItem it) items /\
       label_to_doclaynet !! obj_type it = Some (label s) /\
       prov it = Some (p :: ps) /\
       size page = Some page_size /\
       seg_text s = match text it with Some t => t | None => "" end /\
       seg_bbox s = item_bbox_normalized (bbox p) page_size /\
       data s = match table_html it with
                | Some h => [ {| html_seq := h; otsl_seq := "" |} ]
                | None => []
                end)
    segments.
Proof.
  intros Hseg. unfold _process_page_segments in Hseg.
  destruct (segments_loop_returns page items [] segments Hseg)
    as (new & -> & Hsub & Hall).
  cbn [app]. split; assumption.
Qed.

Lemma enumerate_from_In {A : Type} (l : list A) (i ix : Z) (x : A) :
  In (ix, x) (enumerate_from i l) -> In x l.
Proof.
  revert i. induction l as [|y l IH]; intros i; cbn; [tauto|].
  intros [[= _ <-] | Hin]; [now left|right; eauto].
Qed.

(** X9: for a document without located elements the segment list of a
    yielded tuple is always empty, also when a page record is used:
    every element is skipped by [_process_page_segments], or stops it. *)
Theorem single_page_segments_are_empty
    (cr : ConversionResult) (mt : list Entry) :
  main_text (legacy_document cr) = Some mt ->
  has_items_with_pages (legacy_document cr) mt = false ->
  forall tup,
    In tup (yielded (generate_multimodal_pages cr)) ->
    t_page_segments tup = [].
Proof.
  intros Hmt Hhas tup.
  rewrite (generate_single_page cr mt Hmt Hhas).
  destruct (pages cr) as [|page0 rest] eqn:Hpages.
  - rewrite (single_page_without_records cr mt Hpages).
    intros [<- | []]. reflexivity.
  - rewrite (single_page_with_records cr mt page0 rest Hpages).
    rewrite yield_process_page_cases.
    destruct (_process_page cr _) as [tup0|e] eqn:Hpage; [|intros []].
    intros [<- | []].
    destruct (process_page_other_fields cr _ tup0 Hpage) as (_ & _ & Hseg).
    cbn [doc_items] in Hseg. unfold _process_page_segments in Hseg.
    destruct (segments_loop_returns _ _ _ _ Hseg) as (new & Hnew & _ & Hall).
    cbn [app] in Hnew. subst new.
    destruct (t_page_segments tup0) as [|s segs]; [reflexivity|exfalso].
    inversion Hall as [|? ? (it & p & ps & _ & Hin & _ & Hprov & _) _]; subst.
    apply enumerate_from_In in Hin.
    unfold has_items_with_pages in Hhas.
    assert (existsb (fun orig_item =>
                       carries_prov (resolve (legacy_document cr) orig_item))
                    mt = true) as Hyes.
    { apply existsb_exists. exists (EItem it). split; [exact Hin|].
      cbn. destruct it as [ot pv tx th]. cbn in Hprov. now rewrite Hprov. }
    congruence.
Qed.

Lemma synthesized_text_acc (doc : LegacyDocument) (mt : list Entry)
    (acc : string) :
  fold_left
    (fun content_text item =>
       match resolve doc item with
       | Some {| text := Some t |} =>
           if String.eqb t "" then content_text
           else (content_text ++ t ++ " ")%string
       | _ => content_text
       end)
    mt acc
  = (acc ++ foldr (fun e rest => (resolved_piece doc e ++ rest)%string) "" mt)%string.
Proof.
  revert acc. induction mt as [|e mt IH]; intros acc; cbn [fold_left foldr].
  - now rewrite string_app_nil_r.
  - rewrite IH. unfold resolved_piece at 2, text_piece.
    destruct (resolve doc e) as [[ot pv [t|] th]|]; cbn [text];
      try reflexivity.
    destruct (String.eqb t ""); [reflexivity|].
    now rewrite (string_app_assoc acc).
Qed.

(** X10: with no located element and no page record the generator never
    fails, references among the elements included: it yields exactly one
    tuple, over the 210 x 297 page, with no cell and no segment; the
    plain text is made of the texts of the resolved elements, in order,
    each followed by one space, unresolved references and elements whose
    text is [None] or empty adding nothing; the Markdown field is the
    original text, or without one the export of the whole range. *)
Theorem synthesized_page_never_fails
    (cr : ConversionResult) (mt : list Entry) :
  main_text (legacy_document cr) = Some mt ->
  has_items_with_pages (legacy_document cr) mt = false ->
  pages cr = [] ->
  let doc := legacy_document cr in
  exists tup,
    generate_multimodal_pages cr = MkGen [tup] (Ret tt) /\
    t_page tup = dummy_page /\
    t_page_cells tup = [] /\ t_page_segments tup = [] /\
    t_content_text tup
    = foldr (fun e rest => (resolved_piece doc e ++ rest)%string) "" mt /\
    t_content_md tup
    = match get_original_markdown cr with
      | Some original_md => original_md
      | None => export_to_markdown doc 0 (len mt - 1)
      end.
Proof.
  intros Hmt Hhas Hpages doc. subst doc.
  rewrite (generate_single_page cr mt Hmt Hhas).
  rewrite (single_page_without_records cr mt Hpages).
  eexists. split; [reflexivity|]. cbn.
  repeat split. unfold synthesized_content_text.
  now rewrite synthesized_text_acc.
Qed.

(** The main loop over elements that all lie on page [p] closes no run. *)
Lemma closed_runs_same_page (doc : LegacyDocument) (p : Z) (l : list Entry) :
  Forall (fun e => exists it pr ps,
            resolve doc e = Some it /\ prov it = Some (pr :: ps) /\
            page pr = p) l ->
  forall (i : Z) (st : Locals),
    page_no st = 0 \/ page_no st = p ->
    fst (closed_runs doc st (enumerate_from i l)) = [] /\
    start_ix (snd (closed_runs doc st (enumerate_from i l))) = start_ix st /\
    (l <> [] ->
     page_no (snd (closed_runs doc st (enumerate_from i l))) = p /\
     end_ix (snd (closed_runs doc st (enumerate_from i l))) = i + len l - 1 /\
     doc_items (snd (closed_runs doc st (enumerate_from i l))) <> []).
Proof.
  induction 1 as [|e l (it & pr & ps & Hres & Hprov & Hpage) Hl IH];
    intros i st Hst; cbn [enumerate_from closed_runs].
  - cbn. split; [reflexivity|]. split; [reflexivity|].
    intros Hne. now contradiction Hne.
  - unfold advance. rewrite Hres. destruct it as [ot pv tx th].
    cbn [prov] in Hprov. subst pv.
    assert ((0 <? page_no st) && (page_no st <? page pr) = false) as ->.
    { apply andb_false_iff.
      destruct Hst as [Hst | Hst]; rewrite Hst; [left|right].
      - reflexivity.
      - apply Z.ltb_ge. lia. }
    set (st1 := {| content_text := _; page_no := page pr;
                   start_ix := start_ix st; end_ix := i;
                   doc_items := _ |}).
    specialize (IH (i + 1) st1 (or_intror Hpage)).
    destruct l as [|e' l'].
    + cbn [enumerate_from closed_runs fst snd app]. unfold len. cbn [length].
      split; [reflexivity|]. split; [reflexivity|]. intros _.
      subst st1. cbn. repeat split; try lia. now destruct (doc_items st).
    + destruct (closed_runs doc st1 (enumerate_from (i + 1) (e' :: l')))
        as [c st2].
      cbn [fst snd] in IH |- *. destruct IH as (-> & Hstart & Hrest).
      split; [reflexivity|]. split; [exact Hstart|]. intros _.
      destruct Hrest as (Hp & Hend & Hne); [discriminate|].
      rewrite (len_cons e (e' :: l')). repeat split; try assumption. lia.
Qed.

(** X11: a document all of whose elements are located on one page [p]
    is exported as a single page, provided [p - 1] is an index of
    [doc_result.pages]: exactly one tuple is yielded, over that page
    record, for the run [0 .. len(main_text) - 1]; its Markdown field is
    the stored original text when there is one, its tokenized field the
    recomposed export of the whole range. *)
Theorem one_page_document_is_one_whole_run
    (cr : ConversionResult) (mt : list Entry) (p : Z) (pg : Page) :
  main_text (legacy_document cr) = Some mt ->
  mt <> [] ->
  Forall (fun e => exists it pr ps,
            resolve (legacy_document cr) e = Some it /\
            prov it = Some (pr :: ps) /\ page pr = p) mt ->
  py_index (pages cr) (p - 1) = Ret pg ->
  let doc := legacy_document cr in
  exists tup,
    generate_multimodal_pages cr = MkGen [tup] (Ret tt) /\
    t_page tup = pg /\
    t_content_md tup
    = match get_original_markdown cr with
      | Some original_md => original_md
      | None => export_to_markdown doc 0 (len mt - 1)
      end /\
    t_content_dt tup = export_to_document_tokens doc 0 (len mt - 1) false.
Proof.
  intros Hmt Hne Hall Hpg doc. subst doc.
  assert (has_items_with_pages (legacy_document cr) mt = true) as Hhas.
  { destruct mt as [|e mt']; [contradiction|].
    inversion Hall as [|? ? (it & pr & ps & Hres & Hprov & _) _]; subst.
    unfold has_items_with_pages. cbn [existsb]. rewrite Hres.
    destruct it as [ot pv tx th]. cbn in Hprov. subst pv. reflexivity. }
  rewrite (generate_paginated cr mt Hmt Hhas).
  pose proof (page_runs_inv (legacy_document cr) mt) as (Hruns & _).
  unfold page_runs, enumerate in *.
  destruct (closed_runs_same_page (legacy_document cr) p mt Hall 0
              initial_locals (or_introl eq_refl))
    as (Hclosed & Hstart & Hlast).
  destruct (Hlast Hne) as (Hp & Hend & Hitems).
  destruct (closed_runs (legacy_document cr) initial_locals
              (enumerate_from 0 mt)) as [closed st].
  cbn [fst snd] in *. subst closed. cbn [app] in *.
  assert ((0 <? len (doc_items st)) = true) as Hsome.
  { destruct (doc_items st); [contradiction|]. unfold len. cbn [length].
    apply Z.ltb_lt. lia. }
  rewrite Hsome in *. rewrite <- Hp in Hpg.
  apply Forall_cons in Hruns as [((_ & _ & _ & _ & _ & Hloc & _) & _) _].
  assert (Forall located_entry (doc_items st)) as Hloc'.
  { eapply Forall_impl; [exact Hloc|]. cbn. tauto. }
  destruct (segments_of_located_items pg (doc_items st) Hloc' [])
    as [segments Hseg].
  destruct (process_page_returns cr st pg segments Hpg Hseg)
    as (tup & Hpage & Htp).
  exists tup. rewrite emit_runs_cons, Hpage. cbn [emit_runs yielded ended].
  split; [reflexivity|]. split; [exact Htp|].
  destruct (process_page_fields cr st tup Hpage) as (_ & Hmd & _).
  destruct (process_page_other_fields cr st tup Hpage) as (Hdt & _).
  cbn [initial_locals start_ix] in Hstart.
  rewrite Hdt, Hmd, Hstart, Hend, Z.add_0_l. split; [|reflexivity].
  assert (spans_whole_document (legacy_document cr) st = true) as ->.
  { apply (spans_whole_document_iff _ mt st Hmt). split; [exact Hstart|lia]. }
  reflexivity.
Qed.

End PageExportMore.

(** ** More on the chunking adapters *)

Section ChunkingMore.
Import Chunking.
Context `{Base : ChunkingDocSerializer}.

(** X12: the provider never fails to build a serializer; the serializer
    keeps the document and no constructor argument, and its
    [serialize_doc] gives the document's stored original text for more
    than one part, and what the base serializer gives in every other
    case: no stored text, a document without the method, or at most one
    part. *)
Theorem provider_serializer_behaviour
    (doc : DoclingDocument) (parts : list SerializationResult) (kw : Kwargs) :
  exists self,
    get_serializer doc = Ret self /\
    ser_doc self = doc /\ ser_kwargs self = ∅ /\
    serialize_doc self parts kw
    = match call_get_original_markdown doc with
      | Ret (Some original) =>
          if 1 <? len parts then Ret (mk_SerializationResult original)
          else super_serialize_doc doc ∅ parts kw
      | _ => super_serialize_doc doc ∅ parts kw
      end.
Proof.
  unfold get_serializer. eexists.
  rewrite init_outcome, super_init_doc_only. split; [reflexivity|].
  cbn [ser_doc ser_kwargs]. split; [reflexivity|]. split; [reflexivity|].
  unfold serialize_doc, call_get_original_markdown.
  cbn [ser_doc ser_kwargs _original_content].
  destruct (get_original_markdown doc) as [[original|]|]; reflexivity.
Qed.

(** X13: for a document with stored original text and at least one
    element, the text of the single chunk and the text that the
    provider's serializer returns for any list of more than one part are
    the same. *)
Theorem chunk_agrees_with_serializer
    (doc : DoclingDocument) (original : string)
    (parts : list SerializationResult) (kw : Kwargs) :
  call_get_original_markdown doc = Ret (Some original) ->
  iterate_items doc <> [] ->
  1 < len parts ->
  exists self c,
    get_serializer doc = Ret self /\
    chunk doc = MkGen [c] (Ret tt) /\
    py_map sr_text (serialize_doc self parts kw) = Ret (chunk_text c).
Proof.
  intros Hget Hitems Hlen. unfold call_get_original_markdown in Hget.
  destruct (get_original_markdown doc) as [r|] eqn:Hattr; [|discriminate].
  injection Hget as ->.
  unfold get_serializer. rewrite init_outcome, super_init_doc_only, Hattr.
  rewrite chunk_outcome.
  destruct (iterate_items doc) as [|e entries]; [contradiction|].
  eexists. eexists. split; [reflexivity|]. split; [reflexivity|].
  unfold serialize_doc, chosen_text. rewrite Hattr.
  cbn [_original_content chunk_text]. apply Z.ltb_lt in Hlen. now rewrite Hlen.
Qed.

(** X16: on a document that exposes at least one element the chunk
    operation yields exactly one chunk and ends normally; the text of
    the chunk is the stored original text when the retrieval returns
    one, and the recomposed export when it returns [None] or the
    attribute is missing; the source items are the exposed elements,
    each taken out of its tuple, in order, and the origin is the
    document's. *)
Theorem chunk_of_document_with_elements (doc : DoclingDocument) :
  iterate_items doc <> [] ->
  exists c,
    chunk doc = MkGen [c] (Ret tt) /\
    (forall original,
       call_get_original_markdown doc = Ret (Some original) ->
       chunk_text c = original) /\
    (call_get_original_markdown doc = Ret None \/
     call_get_original_markdown doc = Raise AttributeError ->
     chunk_text c = export_to_markdown doc) /\
    doc_items (chunk_meta c) = map unwrap_item (iterate_items doc) /\
    doc_items (chunk_meta c) <> [] /\
    meta_origin (chunk_meta c) = origin doc.
Proof.
  intros Hitems. rewrite chunk_outcome.
  destruct (iterate_items doc) as [|e entries] eqn:He; [contradiction|].
  eexists. split; [reflexivity|]. cbn [chunk_text chunk_meta doc_items meta_origin].
  unfold chosen_text, call_get_original_markdown.
  destruct (get_original_markdown doc) as [[content|]|];
    (split; [intros original H; congruence|]);
    (split; [intros [H|H]; congruence|]);
    (split; [reflexivity|]); (split; [discriminate|reflexivity]).
Qed.

End ChunkingMore.

(** ** More of the adapters on sample data *)

Section ChunkingMoreExamples.
Import Chunking Samples.

Example provider_on_plain_doc :
  exists self,
    @get_serializer joining_serializer plain_doc = Ret self /\
    @serialize_doc joining_serializer self [title_part; text_part] ∅
    = Ret (mk_SerializationResult
             ("# Title" ++ newline ++ newline ++ "**天数**: 7天")%string).
Proof. eexists. split; reflexivity. Qed.

Lemma chunk_agrees_with_serializer_witness :
  call_get_original_markdown md_doc2 = Ret (Some "# Title  **天数**：7天") /\
  1 < len [title_part; text_part] /\
  exists self c,
    @get_serializer joining_serializer md_doc2 = Ret self /\
    chunk md_doc2 = MkGen [c] (Ret tt) /\
    py_map sr_text
      (@serialize_doc joining_serializer self [title_part; text_part] ∅)
    = Ret (chunk_text c).
Proof.
  split; [reflexivity|]. split; [reflexivity|].
  apply (@chunk_agrees_with_serializer joining_serializer md_doc2
           "# Title  **天数**：7天" [title_part; text_part] ∅);
    [reflexivity|discriminate|reflexivity].
Defined.

Lemma chunk_of_document_with_elements_witness :
  exists c,
    chunk md_doc2 = MkGen [c] (Ret tt) /\
    chunk_text c = "# Title  **天数**：7天" /\
    doc_items (chunk_meta c) = [title_item; para_item].
Proof.
  destruct (chunk_of_document_with_elements md_doc2)
    as (c & Hc & Horig & _ & Hitems & _).
  - discriminate.
  - exists c. split; [exact Hc|]. split; [apply Horig; reflexivity|exact Hitems].
Defined.

End ChunkingMoreExamples.

Section PageExportMoreExamples.
Import PageExport PageSamples.

Example table_page_segments_built :
  @_process_page_segments scaling_geometry
    [(0, para_on 1 "one"); (2, EItem table_on_page_1)] (page_record 1)
  = Ret table_page_segments.
Proof. vm_compute. reflexivity. Qed.

(** The reference stops the loop, although elements with segments come
    before and after it. *)
Example table_page_items_raise :
  @_process_page_segments scaling_geometry table_page_items (page_record 1)
  = Raise AttributeError.
Proof. vm_compute. reflexivity. Qed.

Example cells_result_tuple :
  @generate_multimodal_pages scaling_geometry cells_result
  = MkGen [cells_tuple] (Ret tt).
Proof. vm_compute. reflexivity. Qed.

(** A provenance page beyond the page records: the first run is yielded,
    the second stops the generator. *)
Example missing_second_page :
  let g := @generate_multimodal_pages scaling_geometry
             {| legacy_document := legacy_of (Some three_paras);
                pages := [page_record 1];
                get_original_markdown := None |} in
  map t_content_md (yielded g) = ["one|two"] /\ ended g = Raise IndexError.
Proof. vm_compute. split; reflexivity. Qed.

Lemma page_runs_are_disjoint_ranges_witness :
  let doc := legacy_document two_page_result in
  let runs := page_runs doc three_paras in
  has_items_with_pages doc three_paras = true /\
  @generate_multimodal_pages scaling_geometry two_page_result
  = @emit_runs scaling_geometry two_page_result runs /\
  StronglySorted run_before runs /\
  (length runs <= length three_paras)%nat.
Proof.
  intros doc runs. split; [reflexivity|].
  destruct (@page_runs_are_disjoint_ranges scaling_geometry two_page_result
              three_paras eq_refl eq_refl)
    as (Hgen & _ & Hsorted & _ & Hlen).
  split; [exact Hgen|]. split; [exact Hsorted|exact Hlen].
Defined.

Lemma page_runs_partition_located_items_witness :
  let doc := legacy_document two_page_result in
  has_items_with_pages doc three_paras = true /\
  concat (map doc_items (page_runs doc three_paras))
  = located_items doc (enumerate three_paras) /\
  map fst (located_items doc (enumerate three_paras)) = [0; 1; 2].
Proof.
  intros doc. split; [reflexivity|].
  destruct (@page_runs_partition_located_items scaling_geometry
              two_page_result three_paras eq_refl eq_refl)
    as (_ & Hpart & _).
  split; [exact Hpart|reflexivity].
Defined.

Lemma page_plain_text_is_text_of_run_witness :
  let doc := legacy_document two_page_result in
  let g := @generate_multimodal_pages scaling_geometry two_page_result in
  has_items_with_pages doc three_paras = true /\
  Forall2 (fun st tup => t_content_text tup = page_text (doc_items st))
          (take (length (yielded g)) (page_runs doc three_paras)) (yielded g).
Proof.
  intros doc g. split; [reflexivity|].
  apply (@page_plain_text_is_text_of_run scaling_geometry two_page_result
           three_paras); reflexivity.
Defined.


Lemma yielded_cells_are_cells_of_page_witness :
  In cells_tuple (yielded (@generate_multimodal_pages scaling_geometry
                             cells_result)) /\
  map rec_text (t_page_cells cells_tuple) = ["cell"] /\
  map ocr (t_page_cells cells_tuple) = [true].
Proof.
  assert (In cells_tuple
            (yielded (@generate_multimodal_pages scaling_geometry cells_result)))
    as Hin.
  { replace (@generate_multimodal_pages scaling_geometry cells_result)
      with (MkGen [cells_tuple] (Ret tt)) by (vm_compute; reflexivity).
    now left. }
  split; [exact Hin|].
  destruct (@yielded_cells_are_cells_of_page scaling_geometry cells_result
              cells_tuple Hin) as (_ & _ & Hsized).
  destruct Hsized as (Htext & Hocr & _); [discriminate|].
  split; [exact Htext|exact Hocr].
Defined.

Lemma tokens_are_always_recomposed_witness :
  let doc := legacy_document two_page_result in
  let g := @generate_multimodal_pages scaling_geometry two_page_result in
  get_original_markdown two_page_result = Some "one  two  three" /\
  Forall2 (fun st tup =>
             t_content_dt tup
             = export_to_document_tokens doc (start_ix st) (end_ix st) false)
          (take (length (yielded g)) (page_runs doc three_paras)) (yielded g).
Proof.
  intros doc g. split; [reflexivity|].
  apply (@tokens_are_always_recomposed scaling_geometry two_page_result
           three_paras eq_refl). reflexivity.
Defined.

Lemma markdown_is_export_without_original_witness :
  let doc := legacy_document two_page_result_plain in
  let g := @generate_multimodal_pages scaling_geometry two_page_result_plain in
  Forall2 (fun st tup =>
             t_content_md tup
             = export_to_markdown doc (start_ix st) (end_ix st))
          (take (length (yielded g)) (page_runs doc three_paras)) (yielded g).
Proof.
  intros doc g.
  apply (@markdown_is_export_without_original scaling_geometry
           two_page_result_plain three_paras eq_refl eq_refl). reflexivity.
Defined.

Lemma segments_come_from_labelled_located_elements_witness :
  sublist (map index_in_doc table_page_segments) [0; 2] /\
  Forall (fun s => exists it, In (index_in_doc s, EItem it)
                                 [(0, para_on 1 "one");
                                  (2, EItem table_on_page_1)] /\
                              label_to_doclaynet !! obj_type it = Some (label s))
         table_page_segments.
Proof.
  destruct (@segments_come_from_labelled_located_elements scaling_geometry
              [(0, para_on 1 "one"); (2, EItem table_on_page_1)]
              (page_record 1) table_page_segments)
    as (Hsub & Hall).
  - vm_compute. reflexivity.
  - split; [exact Hsub|].
    eapply Forall_impl; [exact Hall|]. cbn.
    intros s (it & _ & _ & _ & Hin & Hlbl & _). exists it. split; assumption.
Defined.

Lemma single_page_segments_are_empty_witness :
  In markdown_page_tuple
     (yielded (@generate_multimodal_pages scaling_geometry
                 markdown_result_with_page)) /\
  t_page_segments markdown_page_tuple = [].
Proof.
  assert (In markdown_page_tuple
            (yielded (@generate_multimodal_pages scaling_geometry
                        markdown_result_with_page)))
    as Hin.
  { replace (@generate_multimodal_pages scaling_geometry
               markdown_result_with_page)
      with (MkGen [markdown_page_tuple] (Ret tt)) by (vm_compute; reflexivity).
    now left. }
  split; [exact Hin|].
  apply (@single_page_segments_are_empty scaling_geometry
           markdown_result_with_page md_paras eq_refl eq_refl _ Hin).
Defined.

Lemma synthesized_page_never_fails_witness :
  exists tup,
    @generate_multimodal_pages scaling_geometry markdown_result
    = MkGen [tup] (Ret tt) /\
    t_page tup = dummy_page /\
    t_content_text tup = "**天数** 7天 ".
Proof.
  destruct (@synthesized_page_never_fails scaling_geometry markdown_result
              md_paras eq_refl eq_refl eq_refl)
    as (tup & Hgen & Hpage & _ & _ & Htext & _).
  exists tup. split; [exact Hgen|]. split; [exact Hpage|]. exact Htext.
Defined.

Lemma one_page_document_is_one_whole_run_witness :
  exists tup,
    @generate_multimodal_pages scaling_geometry one_page_result
    = MkGen [tup] (Ret tt) /\
    t_page tup = page_record 1 /\
    t_content_md tup = "one  two".
Proof.
  destruct (@one_page_document_is_one_whole_run scaling_geometry
              one_page_result one_page_paras 1 (page_record 1))
    as (tup & Hgen & Hpage & Hmd & _).
  - reflexivity.
  - discriminate.
  - repeat constructor; eexists _, _, _; repeat split.
  - reflexivity.
  - exists tup. split; [exact Hgen|]. split; [exact Hpage|exact Hmd].
Defined.

End PageExportMoreExamples.

(** ** When the segments of a page cannot be built *)

Section SegmentFailures.
Import PageExport.
Context `{Geo : Geometry}.

Lemma segment_step_outcome (page : Page) (segments : list Segment)
    (ix : Z) (e : Entry) :
  (stops_segments page e = false /\
   exists segments', segment_step page segments (ix, e) = Ret segments') \/
  (stops_segments page e = true /\
   (segment_step page segments (ix, e) = Raise AttributeError \/
    segment_step page segments (ix, e) = Raise IndexError)).
Proof.
  unfold stops_segments, segment_step.
  destruct (label_to_doclaynet !! getattr_obj_type e) as [lbl|]; [|left; eauto].
  destruct e as [r|it]; cbn [getattr_prov getattr_text py_bind]; [right; auto|].
  destruct (prov it) as [[|p ps]|]; destruct (size page) as [page_size|];
    try (left; split; [reflexivity|eauto]).
  right. split; [reflexivity|]. right. reflexivity.
Qed.

Lemma segments_loop_outcome (page : Page) (items : list (Z * Entry)) :
  forall segments,
    (Forall (fun x => stops_segments page (snd x) = false) items /\
     exists segments', py_for items segments (segment_step page) = Ret segments')
    \/
    (Exists (fun x => stops_segments page (snd x) = true) items /\
     (py_for items segments (segment_step page) = Raise AttributeError \/
      py_for items segments (segment_step page) = Raise IndexError)).
Proof.
  induction items as [|[ix e] items IH]; intros segments; cbn [py_for].
  - left. split; [constructor|eauto].
  - destruct (segment_step_outcome page segments ix e)
      as [(Hok & segments1 & Hstep) | (Hstop & Hraise)].
    + rewrite Hstep. cbn [py_bind].
      destruct (IH segments1) as [(Hall & Hret) | (Hex & Hraise)].
      * left. split; [constructor; assumption|exact Hret].
      * right. split; [now apply Exists_cons_tl|exact Hraise].
    + right. split; [now apply Exists_cons_hd|].
      destruct Hraise as [-> | ->]; cbn [py_bind]; auto.
Qed.

Lemma enumerate_from_snd {A : Type} (l : list A) (i : Z) :
  map snd (enumerate_from i l) = l.
Proof.
  revert i. induction l as [|x l IH]; intros i; cbn; [reflexivity|].
  now rewrite IH.
Qed.

(** X14: [_process_page_segments] returns exactly when no element of
    [doc_items] with a labelled type is a reference or has an empty
    [prov] list on a page with a size; when there is such an element it
    raises [AttributeError] or [IndexError], whatever the other elements
    are. *)
Theorem segments_fail_on_references_and_empty_prov
    (items : list (Z * Entry)) (page : Page) :
  ((exists segments, _process_page_segments items page = Ret segments) <->
   Forall (fun x => stops_segments page (snd x) = false) items) /\
  (Exists (fun x => stops_segments page (snd x) = true) items ->
   _process_page_segments items page = Raise AttributeError \/
   _process_page_segments items page = Raise IndexError).
Proof.
  unfold _process_page_segments.
  destruct (segments_loop_outcome page items [])
    as [(Hall & Hret) | (Hex & Hraise)].
  - split; [tauto|]. intros Hex. exfalso.
    apply Exists_exists in Hex as (x & Hin & Hx).
    rewrite Forall_forall in Hall. specialize (Hall x Hin). congruence.
  - split; [|auto]. split.
    + intros [segments Hret]. destruct Hraise as [H | H]; congruence.
    + intros Hall. exfalso.
      apply Exists_exists in Hex as (x & Hin & Hx).
      rewrite Forall_forall in Hall. specialize (Hall x Hin). congruence.
Qed.

(** X15: for a document without located elements and with a page
    record, the generator yields its one tuple, over the first page
    record, exactly when no element with a labelled type is a reference
    or has an empty [prov] list while that page has a size; otherwise it
    yields nothing and ends with [AttributeError] or [IndexError]. *)
Theorem first_page_branch_outcome
    (cr : ConversionResult) (mt : list Entry) (page0 : Page) (rest : list Page) :
  main_text (legacy_document cr) = Some mt ->
  has_items_with_pages (legacy_document cr) mt = false ->
  pages cr = page0 :: rest ->
  let g := generate_multimodal_pages cr in
  (Forall (fun e => stops_segments page0 e = false) mt ->
   exists tup, g = MkGen [tup] (Ret tt) /\ t_page tup = page0) /\
  (Exists (fun e => stops_segments page0 e = true) mt ->
   g = MkGen [] (Raise AttributeError) \/ g = MkGen [] (Raise IndexError)).
Proof.
  intros Hmt Hhas Hpages g. subst g.
  rewrite (generate_single_page cr mt Hmt Hhas).
  rewrite (single_page_with_records cr mt page0 rest Hpages).
  rewrite yield_process_page_cases.
  set (st := {| content_text := ""; page_no := 1; start_ix := 0;
                end_ix := len mt - 1; doc_items := enumerate mt |}).
  assert (py_index (pages cr) (page_no st - 1) = Ret page0) as Hpage.
  { cbn. rewrite Hpages. apply py_index_head. }
  destruct (segments_loop_outcome page0 (enumerate mt) [])
    as [(Hall & segments & Hret) | (Hex & Hraise)].
  - split.
    + intros _.
      destruct (process_page_returns cr st page0 segments Hpage Hret)
        as (tup & Htup & Htp).
      exists tup. rewrite Htup. auto.
    + intros Hex. exfalso.
      apply Exists_exists in Hex as (e & Hin & He).
      rewrite Forall_forall in Hall.
      apply list_elem_of_In in Hin.
      rewrite <- (enumerate_from_snd mt 0) in Hin.
      apply in_map_iff in Hin as (x & <- & Hx).
      apply list_elem_of_In in Hx. specialize (Hall x Hx). congruence.
  - assert (forall e, py_for (enumerate mt) [] (segment_step page0) = Raise e ->
                      _process_page cr st = Raise e) as Hfail.
    { intros e He. unfold _process_page. rewrite Hpage. cbn [py_bind].
      unfold _process_page_segments. cbn [doc_items st]. now rewrite He. }
    split.
    + intros Hall. exfalso.
      apply Exists_exists in Hex as (x & Hin & Hx).
      rewrite Forall_forall in Hall.
      assert (snd x ∈ mt) as Hmem.
      { rewrite <- (enumerate_from_snd mt 0). apply list_elem_of_In.
        apply in_map. now apply list_elem_of_In. }
      specialize (Hall (snd x) Hmem). congruence.
    + intros _. destruct Hraise as [H | H]; rewrite (Hfail _ H); auto.
Qed.

End SegmentFailures.

Section SegmentFailureExamples.
Import PageExport PageSamples.

Lemma segments_fail_on_references_and_empty_prov_witness :
  Exists (fun x => stops_segments (page_record 1) (snd x) = true)
         table_page_items /\
  (@_process_page_segments scaling_geometry table_page_items (page_record 1)
   = Raise AttributeError \/
   @_process_page_segments scaling_geometry table_page_items (page_record 1)
   = Raise IndexError).
Proof.
  assert (Exists (fun x => stops_segments (page_record 1) (snd x) = true)
                 table_page_items) as Hex.
  { apply Exists_cons_tl, Exists_cons_hd. vm_compute. reflexivity. }
  split; [exact Hex|].
  apply (proj2 (@segments_fail_on_references_and_empty_prov scaling_geometry
                  table_page_items (page_record 1))).
  exact Hex.
Defined.

Lemma first_page_branch_outcome_witness :
  (exists tup,
     @generate_multimodal_pages scaling_geometry markdown_result_with_page
     = MkGen [tup] (Ret tt) /\ t_page tup = page_record 1) /\
  (@generate_multimodal_pages scaling_geometry table_ref_result
   = MkGen [] (Raise AttributeError) \/
   @generate_multimodal_pages scaling_geometry table_ref_result
   = MkGen [] (Raise IndexError)).
Proof.
  split.
  - apply (proj1 (@first_page_branch_outcome scaling_geometry
                    markdown_result_with_page md_paras (page_record 1) []
                    eq_refl eq_refl eq_refl)).
    apply Forall_cons_2; [vm_compute; reflexivity|].
    apply Forall_cons_2; [vm_compute; reflexivity|]. apply Forall_nil_2.
  - apply (proj2 (@first_page_branch_outcome scaling_geometry
                    table_ref_result [para "one"; table_ref] (page_record 1) []
                    eq_refl eq_refl eq_refl)).
    apply Exists_cons_tl, Exists_cons_hd. vm_compute. reflexivity.
Defined.

End SegmentFailureExamples.

(** ** The first page record and elements that were not resolved *)

Section FirstPageFailures.
Import PageExport PageSamples.
Context `{Geo : Geometry}.

(** C6 (the code at the failing input): a document without located
    elements, with stored original text and a page record, one of whose
    elements is a reference to a table.  The single-page branch hands
    the elements of [main_text] to [_process_page_segments] as they are,
    where the main loop resolves them first; reading [prov] on the
    reference raises [AttributeError], and no tuple is yielded, the
    original text with it. *)
Theorem unresolved_reference_stops_first_page :
  main_text (legacy_document table_ref_result) = Some [para "one"; table_ref] /\
  has_items_with_pages (legacy_document table_ref_result)
    [para "one"; table_ref] = false /\
  get_original_markdown table_ref_result = Some "one" /\
  pages table_ref_result = [page_record 1] /\
  generate_multimodal_pages table_ref_result = MkGen [] (Raise AttributeError).
Proof.
  split; [reflexivity|]. split; [reflexivity|]. split; [reflexivity|].
  split; [reflexivity|]. vm_compute. reflexivity.
Qed.

(** C10 (the code at the failing input): a document without located
    elements and with a page record, whose one element has an empty
    [prov] list.  [_process_page_segments] passes the test
    [item.prov is None] and evaluates [item.prov[0]], which raises
    [IndexError]; no tuple is yielded, so none with an empty plain-text
    field. *)
Theorem empty_provenance_list_stops_first_page :
  has_items_with_pages (legacy_document empty_prov_result)
    [ EItem {| obj_type := "paragraph"; prov := Some [];
               text := Some "one"; table_html := None |} ] = false /\
  pages empty_prov_result = [page_record 1] /\
  generate_multimodal_pages empty_prov_result = MkGen [] (Raise IndexError).
Proof.
  split; [reflexivity|]. split; [reflexivity|]. vm_compute. reflexivity.
Qed.

End FirstPageFailures.
